(** * Multi-vendor data fetching service: job pipeline model

    A shallow embedding of the job dispatch pipeline:
    - [shared/models.py]   : JSON values, job statuses, [clean_vendor_data];
    - [shared/database.py] : the job store accessor over a keyed collection;
    - [shared/queue.py]    : the work queue accessor over a stream with one
                             consumer group;
    - [worker/main.py]     : rate limiter, vendor client, [process_job];
    - [api/main.py]        : the webhook completion handler.

    Conventions.  Python [str] is modelled by [string]; a character is a code
    point below 256, and [py_isspace] / [py_lower_char] are Python's
    [str.isspace] / [str.lower] on that range.  A Python [dict] is an
    association list in insertion order; [dict_set] is [d[k] = v].  External
    services (the document store, the stream server, the HTTP vendors, the
    clocks) are modelled by explicit state and by the readings they return.
    The document store takes what its driver encodes ([bson_encodable]) and
    raises on the rest; the times of the worker's rate limiter are binary64
    floats ([spec_float] at precision 53) with IEEE 754 arithmetic. *)

From Stdlib Require Import ZArith QArith Lqa String Ascii List Bool Lia.
From Stdlib Require Import Floats.SpecFloat.
From stdpp Require Import base option list gmap strings fin_maps.
Import ListNotations.

Local Open Scope Z_scope.
Local Open Scope string_scope.

(** ** Python strings *)

Module PyStr.

(** [str.isspace] on one character (code points below 256). *)
Definition py_isspace (c : ascii) : bool :=
  let n := N_of_ascii c in
  ((9 <=? n) && (n <=? 13) || (28 <=? n) && (n <=? 32)
   || (n =? 133) || (n =? 160))%N.

(** [str.lower] on one character (code points below 256). *)
Definition py_lower_char (c : ascii) : ascii :=
  let n := N_of_ascii c in
  if ((65 <=? n) && (n <=? 90)
      || (192 <=? n) && (n <=? 222) && negb (n =? 215))%N
  then ascii_of_N (n + 32) else c.

Fixpoint lower (s : string) : string :=
  match s with
  | EmptyString => EmptyString
  | String c s' => String (py_lower_char c) (lower s')
  end.

Fixpoint lstrip (s : string) : string :=
  match s with
  | EmptyString => EmptyString
  | String c s' => if py_isspace c then lstrip s' else s
  end.

Fixpoint rstrip (s : string) : string :=
  match s with
  | EmptyString => EmptyString
  | String c s' =>
      match rstrip s' with
      | EmptyString => if py_isspace c then EmptyString else String c EmptyString
      | r => String c r
      end
  end.

(** [s.strip()] *)
Definition strip (s : string) : string := rstrip (lstrip s).

(** [p in s] for strings: [p] occurs as a contiguous substring of [s]. *)
Fixpoint contains (p s : string) : bool :=
  String.prefix p s ||
  match s with
  | EmptyString => false
  | String _ s' => contains p s'
  end.

End PyStr.

(** ** shared/models.py *)

Module Models.
Import PyStr.

Inductive JobStatus := PENDING | PROCESSING | COMPLETE | FAILED.

Definition JobStatus_eqb (a b : JobStatus) : bool :=
  match a, b with
  | PENDING, PENDING | PROCESSING, PROCESSING
  | COMPLETE, COMPLETE | FAILED, FAILED => true
  | _, _ => false
  end.

(** JSON number that is not an integer: sign, mantissa, exponent; the
    sanitizer and the store treat it as an opaque scalar. *)
Record pyfloat := { f_neg : bool; f_mant : N; f_exp : Z }.

(** [Any]: the values [response.json()] and the store can hold. *)
#[local] Unset Elimination Schemes.
Inductive value :=
| VNone
| VBool (b : bool)
| VInt (z : Z)
| VFloat (f : pyfloat)
| VStr (s : string)
| VList (l : list value)
| VDict (d : list (string * value)).
#[local] Set Elimination Schemes.

Abbreviation dict := (list (string * value)).

(** [d[k] = v]: replace in place when the key is present, append otherwise. *)
Fixpoint dict_set (k : string) (v : value) (d : dict) : dict :=
  match d with
  | [] => [(k, v)]
  | (k', v') :: d' =>
      if String.eqb k' k then (k, v) :: d' else (k', v') :: dict_set k v d'
  end.

(** [d.get(k)] *)
Fixpoint dict_get (k : string) (d : dict) : option value :=
  match d with
  | [] => None
  | (k', v') :: d' => if String.eqb k' k then Some v' else dict_get k d'
  end.

(** [bool(v)]: Python truthiness. *)
Definition truthy (v : value) : bool :=
  match v with
  | VNone => false
  | VBool b => b
  | VInt z => negb (z =? 0)%Z
  | VFloat f => negb (f_mant f =? 0)%N
  | VStr s => negb (String.eqb s "")
  | VList l => match l with [] => false | _ => true end
  | VDict d => match d with [] => false | _ => true end
  end.

Definition pyfloat_eqb (x y : pyfloat) : bool :=
  Bool.eqb (f_neg x) (f_neg y) && (f_mant x =? f_mant y)%N
  && (f_exp x =? f_exp y)%Z.

(** Structural equality of stored values (the store compares documents
    field by field, in order). *)
Fixpoint value_eqb (a b : value) {struct a} : bool :=
  match a, b with
  | VNone, VNone => true
  | VBool x, VBool y => Bool.eqb x y
  | VInt x, VInt y => (x =? y)%Z
  | VFloat x, VFloat y => pyfloat_eqb x y
  | VStr x, VStr y => String.eqb x y
  | VList x, VList y =>
      (fix items (x y : list value) {struct x} : bool :=
         match x, y with
         | [], [] => true
         | u :: x', v :: y' => value_eqb u v && items x' y'
         | _, _ => false
         end) x y
  | VDict x, VDict y =>
      (fix fields (x y : dict) {struct x} : bool :=
         match x, y with
         | [], [] => true
         | (k, u) :: x', (k', v) :: y' =>
             String.eqb k k' && value_eqb u v && fields x' y'
         | _, _ => false
         end) x y
  | _, _ => false
  end.

Definition pii_patterns : list string := ["email"; "phone"; "ssn"; "password"].

(** [any(pii in key.lower() for pii in [...])] *)
Definition is_pii_key (key : string) : bool :=
  existsb (fun pii => contains pii (lower key)) pii_patterns.

Definition REDACTED : string := "[REDACTED]".

(** [clean_vendor_data], lines 57-80.  The loop over [data.items()] is the
    [fold_left]; the accumulator is [cleaned]. *)
Fixpoint clean_vendor_data (data : value) : value :=
  match data with
  | VDict d =>
      VDict
        (fold_left
           (fun cleaned kv =>
              let '(key, value) := kv in
              match value with
              | VStr s =>
                  let cleaned_value := strip s in
                  let cleaned_value :=
                    if is_pii_key key then REDACTED else cleaned_value in
                  dict_set key (VStr cleaned_value) cleaned
              | VDict _ => dict_set key (clean_vendor_data value) cleaned
              | VList l =>
                  dict_set key
                    (VList (map (fun item =>
                                   match item with
                                   | VDict _ => clean_vendor_data item
                                   | _ => item
                                   end) l))
                    cleaned
              | _ => dict_set key value cleaned
              end)
           d [])
  | _ => data
  end.

(** Request and response shapes (pydantic models). *)
Record VendorRequest := { job_id : string; vr_payload : dict }.
Record WebhookRequest := { wh_job_id : string; wh_data : dict }.

End Models.

(** ** shared/database.py *)

Module Database.
Import Models.

(** A document of the [jobs] collection.  The collection has a unique index
    on [request_id], so it is a finite map keyed by the request id. *)
Record job_doc := {
  payload : dict;
  status : JobStatus;
  created_at : Z;
  updated_at : Z;
  result : value;          (* [VNone] is Python's [None] *)
  error : option string
}.

Abbreviation collection := (gmap string job_doc).

Definition option_string_eqb (a b : option string) : bool :=
  match a, b with
  | None, None => true
  | Some x, Some y => String.eqb x y
  | _, _ => false
  end.

Definition job_doc_eqb (a b : job_doc) : bool :=
  value_eqb (VDict (payload a)) (VDict (payload b))
  && JobStatus_eqb (status a) (status b)
  && (created_at a =? created_at b)%Z
  && (updated_at a =? updated_at b)%Z
  && value_eqb (result a) (result b)
  && option_string_eqb (error a) (error b).

(** The argument of [$set]: the fields present in [update_data]. *)
Record update_data := {
  set_status : JobStatus;
  set_updated_at : Z;
  set_result : option value;
  set_error : option string
}.

Definition apply_set (u : update_data) (d : job_doc) : job_doc :=
  {| payload := payload d;
     status := set_status u;
     created_at := created_at d;
     updated_at := set_updated_at u;
     result := match set_result u with Some r => r | None => result d end;
     error := match set_error u with Some e => Some e | None => error d end |}.

(** *** What the driver encodes.  [insert_one] and [update_one] encode
    their documents as BSON before anything is sent.  The encoder raises
    on an integer outside the signed 64-bit range ([OverflowError]) and on
    a mapping key that holds the NUL character ([InvalidDocument]), at any
    depth; every other JSON value is encoded.  The server is taken to
    store what it is sent: documents stay below its size limit. *)
Fixpoint has_nul (s : string) : bool :=
  match s with
  | EmptyString => false
  | String c s' => Ascii.eqb c "000"%char || has_nul s'
  end.

Fixpoint bson_encodable (v : value) : bool :=
  match v with
  | VInt z => (- 2 ^ 63 <=? z)%Z && (z <? 2 ^ 63)%Z
  | VList l => forallb bson_encodable l
  | VDict d =>
      forallb (fun kv => negb (has_nul (fst kv)) && bson_encodable (snd kv)) d
  | _ => true
  end.

Definition doc_encodable (d : job_doc) : bool :=
  bson_encodable (VDict (payload d)) && bson_encodable (result d).

Definition update_encodable (u : update_data) : bool :=
  match set_result u with
  | Some r => bson_encodable r
  | None => true
  end.

(** [insert_one]: [None] is an exception, raised by the encoder or for the
    duplicate key of the unique index; nothing is stored then. *)
Definition insert_one (jobs : collection) (request_id : string) (d : job_doc)
  : option collection :=
  if doc_encodable d then
    match jobs !! request_id with
    | Some _ => None
    | None => Some (<[request_id := d]> jobs)
    end
  else None.

(** [update_one(filter, {"$set": u})] without upsert.  [None] is the
    exception of the encoder, raised before the filter is looked at; in a
    result the second component is [modified_count]: 1 when the matched
    document changed. *)
Definition update_one (jobs : collection) (request_id : string)
    (u : update_data) : option (collection * nat) :=
  if update_encodable u then
    match jobs !! request_id with
    | None => Some (jobs, 0%nat)
    | Some d =>
        let d' := apply_set u d in
        Some (<[request_id := d']> jobs,
              if job_doc_eqb d d' then 0%nat else 1%nat)
    end
  else None.

(** [DatabaseManager.create_job], lines 33-50; [now] is [datetime.utcnow()]. *)
Definition create_job (jobs : collection) (request_id : string)
    (pl : dict) (now : Z) : collection * bool :=
  let job_doc :=
    {| payload := pl; status := PENDING; created_at := now;
       updated_at := now; result := VNone; error := None |} in
  match insert_one jobs request_id job_doc with
  | Some jobs' => (jobs', true)
  | None => (jobs, false)
  end.

(** [JobStatusResponse]; [result] is [Optional[Dict[str, Any]]]. *)
Record JobStatusResponse := {
  r_status : JobStatus;
  r_result : option dict;
  r_error : option string;
  r_created_at : Z;
  r_updated_at : Z
}.

(** [DatabaseManager.get_job], lines 52-68.  Building the response
    validates [result]: a stored value that is neither [None] nor a mapping
    raises, and the handler returns [None]. *)
Definition get_job (jobs : collection) (request_id : string)
  : option JobStatusResponse :=
  match jobs !! request_id with
  | None => None
  | Some job_doc =>
      let response r :=
        Some {| r_status := status job_doc; r_result := r;
                r_error := error job_doc;
                r_created_at := created_at job_doc;
                r_updated_at := updated_at job_doc |} in
      match result job_doc with
      | VNone => response None
      | VDict d => response (Some d)
      | _ => None
      end
  end.

(** [DatabaseManager.update_job_status], lines 70-93.  [res = VNone] and
    [err = None] are the defaults of the optional arguments; an exception
    of [update_one] is caught and answered with [False]. *)
Definition update_job_status (jobs : collection) (request_id : string)
    (st : JobStatus) (res : value) (err : option string) (now : Z)
  : collection * bool :=
  let update_data :=
    {| set_status := st;
       set_updated_at := now;
       set_result := match res with VNone => None | _ => Some res end;
       set_error := err |} in
  match update_one jobs request_id update_data with
  | Some (jobs', modified_count) => (jobs', (0 <? modified_count)%nat)
  | None => (jobs, false)
  end.

End Database.

(** ** shared/queue.py *)

Module Queue.
Import Models.

(** The fields [enqueue_job] writes.  [e_payload] stands for the text
    [json.dumps(payload)]: [json.loads] gives the value back. *)
Record queue_entry := {
  e_request_id : string;
  e_payload : value;
  e_vendor_type : string;
  e_timestamp : string
}.

(** The stream [job_queue] with its consumer group [worker_group].  The log
    is append-only and the id of an entry is its position.  The group keeps
    the number of entries delivered so far and the set of delivered but
    unacknowledged ids. *)
Record stream := {
  entries : list queue_entry;
  last_delivered : nat;
  pending : gset nat
}.

(** State after [xgroup_create(..., id="0", mkstream=True)]. *)
Definition empty_stream : stream :=
  {| entries := []; last_delivered := 0%nat; pending := ∅ |}.

Definition xadd (q : stream) (e : queue_entry) : stream :=
  {| entries := entries q ++ [e];
     last_delivered := last_delivered q;
     pending := pending q |}.

(** [xreadgroup(group, consumer, {stream: ">"}, count=1, block=...)]: the
    first entry never delivered to the group, which becomes pending. *)
Definition xreadgroup (q : stream) : stream * option (nat * queue_entry) :=
  match entries q !! last_delivered q with
  | None => (q, None)
  | Some e =>
      ({| entries := entries q;
          last_delivered := S (last_delivered q);
          pending := {[ last_delivered q ]} ∪ pending q |},
       Some (last_delivered q, e))
  end.

Definition xack (q : stream) (message_id : nat) : stream :=
  {| entries := entries q;
     last_delivered := last_delivered q;
     pending := pending q ∖ {[ message_id ]} |}.

(** [QueueManager.enqueue_job], lines 33-47; [ts] is [str(time.time())]. *)
Definition enqueue_job (q : stream) (request_id : string) (pl : dict)
    (vendor_type : string) (ts : string) : stream * bool :=
  let job_data :=
    {| e_request_id := request_id; e_payload := VDict pl;
       e_vendor_type := vendor_type; e_timestamp := ts |} in
  (xadd q job_data, true).

(** [QueueManager.dequeue_job], lines 49-83.  A payload that is not a
    mapping fails the validation of [VendorRequest]: the exception handler
    returns [None] and the acknowledgement is not reached. *)
Definition dequeue_job (q : stream) : stream * option VendorRequest :=
  match xreadgroup q with
  | (q1, None) => (q1, None)
  | (q1, Some (message_id, data)) =>
      match e_payload data with
      | VDict pl =>
          let vendor_request :=
            {| job_id := e_request_id data; vr_payload := pl |} in
          (xack q1 message_id, Some vendor_request)
      | _ => (q1, None)
      end
  end.

(** [QueueManager.get_queue_length] *)
Definition get_queue_length (q : stream) : nat := length (entries q).

End Queue.

(** ** worker/main.py *)

Module Worker.
Import Models Database Queue.

(** *** Rate limiter.  Times are [time.time()] readings in seconds: Python
    floats, that is binary64 numbers, with the arithmetic of IEEE 754
    (round to nearest, ties to even). *)
Definition float := spec_float.

Definition float_sub : float -> float -> float := SFsub 53 1024.
Definition float_lt : float -> float -> bool := SFltb.



Record RateLimiter := {
  calls_per_second : Z;
  last_call_time : float;
  min_interval : float
}.


(** The argument of [time.sleep] in [wait_if_needed], if it is called. *)
Definition sleep_time (rl : RateLimiter) (current_time : float)
  : option float :=
  let time_since_last := float_sub current_time (last_call_time rl) in
  if float_lt time_since_last (min_interval rl)
  then Some (float_sub (min_interval rl) time_since_last)
  else None.

(** [RateLimiter.wait_if_needed], lines 19-28.  [current_time] is the first
    clock reading and [wake_time] the one stored at the end; the result
    also gives the sleep that was requested in between. *)
Definition wait_if_needed (rl : RateLimiter) (current_time wake_time : float)
  : RateLimiter * option float :=
  ({| calls_per_second := calls_per_second rl;
      last_call_time := wake_time;
      min_interval := min_interval rl |},
   sleep_time rl current_time).

(** *** Vendor client *)

Record http_request := { url : string; json : value }.

(** What a POST gives: an exception of the HTTP client, or a response with
    its status code and body ([None]: the body is not JSON). *)
Inductive http_outcome :=
| TransportError
| Response (status_code : Z) (body : option value).

Record VendorClient := {
  sync_url : string;
  async_url : string;
  api_url : string;
  sync_rate_limiter : RateLimiter;
  async_rate_limiter : RateLimiter
}.


(** What one job sees of the outside: the hash function of the process,
    the answer of the HTTP peer, the two clock readings of the rate limiter
    and the timestamps of the first and second store update. *)
Record environment := {
  str_hash : string -> Z;
  http_post : http_request -> http_outcome;
  time_enter : float;
  time_leave : float;
  utcnow_1 : Z;
  utcnow_2 : Z
}.

(** [VendorClient.call_sync_vendor], lines 41-63.  [VNone] is the [None]
    returned on a failure. *)
Definition call_sync_vendor (env : environment) (vc : VendorClient)
    (vendor_request : VendorRequest) : VendorClient * http_request * value :=
  let rl := fst (wait_if_needed (sync_rate_limiter vc)
                   (time_enter env) (time_leave env)) in
  let vc' := {| sync_url := sync_url vc; async_url := async_url vc;
                api_url := api_url vc; sync_rate_limiter := rl;
                async_rate_limiter := async_rate_limiter vc |} in
  let request :=
    {| url := sync_url vc ++ "/process";
       json := VDict [("job_id", VStr (job_id vendor_request));
                      ("payload", VDict (vr_payload vendor_request))] |} in
  let result :=
    match http_post env request with
    | TransportError => VNone
    | Response status_code body =>
        if (status_code =? 200)%Z
        then match body with Some v => v | None => VNone end
        else VNone
    end in
  (vc', request, result).

(** [VendorClient.call_async_vendor], lines 65-88. *)
Definition call_async_vendor (env : environment) (vc : VendorClient)
    (vendor_request : VendorRequest) : VendorClient * http_request * bool :=
  let rl := fst (wait_if_needed (async_rate_limiter vc)
                   (time_enter env) (time_leave env)) in
  let vc' := {| sync_url := sync_url vc; async_url := async_url vc;
                api_url := api_url vc;
                sync_rate_limiter := sync_rate_limiter vc;
                async_rate_limiter := rl |} in
  let request :=
    {| url := async_url vc ++ "/process";
       json := VDict [("job_id", VStr (job_id vendor_request));
                      ("payload", VDict (vr_payload vendor_request));
                      ("webhook_url",
                       VStr (api_url vc ++ "/vendor-webhook/async"))] |} in
  let success :=
    match http_post env request with
    | TransportError => false
    | Response status_code _ => (status_code =? 200)%Z
    end in
  (vc', request, success).

Definition type_name (v : value) : string :=
  match v with
  | VNone => "NoneType"
  | VBool _ => "bool"
  | VInt _ => "int"
  | VFloat _ => "float"
  | VStr _ => "str"
  | VList _ => "list"
  | VDict _ => "dict"
  end.

(** [str(e)] for the [AttributeError] of [result.get] on a non-mapping. *)
Definition no_get_attribute (v : value) : string :=
  "'" ++ type_name v ++ "' object has no attribute 'get'".

(** State of a worker after one job: the store, the client, the value of
    the local variable [vendor_type] that chose the branch, and the HTTP
    request sent. *)
Record job_outcome := {
  jobs_after : collection;
  client_after : VendorClient;
  routed : string;
  sent : http_request
}.

(** [Worker.process_job], lines 140-203. *)
Definition process_job (env : environment) (vc : VendorClient)
    (jobs : collection) (vendor_request : VendorRequest) : job_outcome :=
  let id := job_id vendor_request in
  let jobs1 := fst (update_job_status jobs id PROCESSING VNone None
                      (utcnow_1 env)) in
  let vendor_type :=
    if (str_hash env id mod 2 =? 0)%Z then "sync" else "async" in
  if String.eqb vendor_type "sync" then
    let '(vc', request, result) := call_sync_vendor env vc vendor_request in
    let jobs2 :=
      if truthy result then
        match result with
        | VDict r =>
            let cleaned_result :=
              clean_vendor_data
                (match dict_get "data" r with
                 | Some v => v
                 | None => VDict []
                 end) in
            fst (update_job_status jobs1 id COMPLETE cleaned_result None
                   (utcnow_2 env))
        | _ =>
            (* [result.get] raises; the handler of line 195 records it *)
            fst (update_job_status jobs1 id FAILED VNone
                   (Some (no_get_attribute result)) (utcnow_2 env))
        end
      else
        fst (update_job_status jobs1 id FAILED VNone
               (Some "Sync vendor call failed") (utcnow_2 env)) in
    {| jobs_after := jobs2; client_after := vc'; routed := vendor_type;
       sent := request |}
  else
    let '(vc', request, success) := call_async_vendor env vc vendor_request in
    let jobs2 :=
      if success then jobs1
      else
        fst (update_job_status jobs1 id FAILED VNone
               (Some "Async vendor call failed") (utcnow_2 env)) in
    {| jobs_after := jobs2; client_after := vc'; routed := vendor_type;
       sent := request |}.

(** State of a worker process between two iterations of [Worker.run]. *)
Record worker := {
  w_jobs : collection;
  w_queue : stream;
  w_client : VendorClient
}.

(** The first half of an iteration of [Worker.run], lines 126-128: the
    state in which [process_job] starts, or in which the worker is if it
    stops right after [dequeue_job]. *)
Definition run_dequeue (w : worker) : worker * option VendorRequest :=
  let '(q, vendor_request) := dequeue_job (w_queue w) in
  ({| w_jobs := w_jobs w; w_queue := q; w_client := w_client w |},
   vendor_request).

(** One iteration of the loop of [Worker.run], lines 125-138. *)
Definition run_iteration (env : environment) (w : worker) : worker :=
  let '(w1, vendor_request) := run_dequeue w in
  match vendor_request with
  | Some r =>
      let o := process_job env (w_client w1) (w_jobs w1) r in
      {| w_jobs := jobs_after o; w_queue := w_queue w1;
         w_client := client_after o |}
  | None => w1
  end.

End Worker.

(** ** api/main.py *)

Module Api.
Import Models Database Queue.

Inductive http_result :=
| OK
| HTTPException (status_code : Z) (detail : string).

(** [vendor_webhook], lines 87-107.  The path parameter [vendor] is not
    used. *)
Definition vendor_webhook (jobs : collection) (vendor : string)
    (webhook_request : WebhookRequest) (now : Z) : collection * http_result :=
  let '(jobs', updated) :=
    update_job_status jobs (wh_job_id webhook_request) COMPLETE
      (VDict (wh_data webhook_request)) None now in
  if updated then (jobs', OK)
  else (jobs', HTTPException 404 "Job not found").

(** [create_job] of the intake, lines 41-65; [request_id] is the generated
    identifier and [vendor_type] the outcome of the random choice. *)
Definition create_job (jobs : collection) (q : stream) (pl : dict)
    (request_id vendor_type : string) (now : Z) (ts : string)
  : collection * stream * http_result :=
  let '(jobs', created) := Database.create_job jobs request_id pl now in
  if created then
    let '(q', queued) := enqueue_job q request_id pl vendor_type ts in
    if queued then (jobs', q', OK)
    else (jobs', q', HTTPException 500 "Internal server error")
  else (jobs', q, HTTPException 500 "Internal server error").

End Api.

(** ** Definitions used to state the properties *)

Module Props.
Import PyStr Models Database Queue Worker Api.

(** The body of the loop of [clean_vendor_data] for one item of the
    mapping: the value stored under [key]. *)
Definition clean_item (item : value) : value :=
  match item with
  | VDict _ => clean_vendor_data item
  | _ => item
  end.

Definition clean_field (key : string) (v : value) : value :=
  match v with
  | VStr s => VStr (if is_pii_key key then REDACTED else strip s)
  | VDict _ => clean_vendor_data v
  | VList l => VList (map clean_item l)
  | _ => v
  end.

(** The string is empty or its first character is not whitespace. *)
Definition starts_clean (s : string) : Prop :=
  match s with
  | EmptyString => True
  | String c _ => py_isspace c = false
  end.

(** The loop of [clean_vendor_data] with the value each key receives given
    by [g]. *)
Definition dict_fold (g : string -> value -> value) (d acc : dict) : dict :=
  fold_left (fun cleaned kv => dict_set (fst kv) (g (fst kv) (snd kv)) cleaned)
    d acc.

Definition is_dict (v : value) : bool :=
  match v with VDict _ => true | _ => false end.

Definition keys (d : dict) : list string := map fst d.

(** Sanitized in the sense of the specification: under a key that matches
    an identifying-information pattern the value is the redaction marker,
    and every string is trimmed, through all mappings and sequences. *)
Fixpoint fully_sanitized (v : value) : bool :=
  match v with
  | VStr s => String.eqb (strip s) s
  | VList l => forallb fully_sanitized l
  | VDict d =>
      forallb
        (fun kv =>
           (if is_pii_key (fst kv) then value_eqb (snd kv) (VStr REDACTED)
            else true)
           && fully_sanitized (snd kv))
        d
  | _ => true
  end.

(** Sanitized as far as [clean_vendor_data] goes: a string stored directly
    under a key is the redaction marker when the key matches and trimmed
    otherwise; this holds again inside mappings stored under a key and
    inside mappings that are items of a sequence stored under a key. *)
Fixpoint sanitized (v : value) : bool :=
  match v with
  | VDict d =>
      forallb
        (fun kv =>
           match snd kv with
           | VStr s =>
               if is_pii_key (fst kv) then String.eqb s REDACTED
               else String.eqb (strip s) s
           | VDict _ => sanitized (snd kv)
           | VList l =>
               forallb
                 (fun item =>
                    match item with
                    | VDict _ => sanitized item
                    | _ => true
                    end) l
           | _ => true
           end)
        d
  | _ => true
  end.

Definition item_sanitized (item : value) : bool :=
  match item with
  | VDict _ => sanitized item
  | _ => true
  end.

Definition field_sanitized (key : string) (v : value) : bool :=
  match v with
  | VStr s =>
      if is_pii_key key then String.eqb s REDACTED
      else String.eqb (strip s) s
  | VDict _ => sanitized v
  | VList l => forallb item_sanitized l
  | _ => true
  end.

(** The [update_data] that [update_job_status] builds from its arguments. *)
Definition update_of (st : JobStatus) (res : value) (err : option string)
    (now : Z) : update_data :=
  {| set_status := st;
     set_updated_at := now;
     set_result := match res with VNone => None | _ => Some res end;
     set_error := err |}.

(** Floats that stand for a number, and those above zero. *)
Definition float_is_finite (f : float) : bool :=
  match f with
  | S754_zero _ | S754_finite _ _ _ => true
  | _ => false
  end.

Definition float_is_positive (f : float) : bool :=
  match f with
  | S754_finite false _ _ => true
  | _ => false
  end.



Definition is_terminal (st : JobStatus) : bool :=
  match st with
  | COMPLETE | FAILED => true
  | PENDING | PROCESSING => false
  end.

(** The writers of the job store: the dispatcher handling one request and
    the webhook completion handler receiving one callback. *)
Inductive operation :=
| Dispatch (env : environment) (vc : VendorClient) (r : VendorRequest)
| Webhook (vendor : string) (w : WebhookRequest) (now : Z).

Definition step (jobs : collection) (op : operation) : collection :=
  match op with
  | Dispatch env vc r => jobs_after (process_job env vc jobs r)
  | Webhook vendor w now => fst (vendor_webhook jobs vendor w now)
  end.

Definition run (jobs : collection) (ops : list operation) : collection :=
  fold_left step ops jobs.

Definition is_webhook (op : operation) : bool :=
  match op with Webhook _ _ _ => true | Dispatch _ _ _ => false end.

(** Operations on the queue by any producer or consumer. *)
Inductive queue_op :=
| Enqueue (request_id : string) (pl : dict) (vendor_type ts : string)
| Dequeue.

Definition queue_step (q : stream) (op : queue_op) : stream :=
  match op with
  | Enqueue request_id pl vendor_type ts =>
      fst (enqueue_job q request_id pl vendor_type ts)
  | Dequeue => fst (dequeue_job q)
  end.

Definition queue_run (q : stream) (ops : list queue_op) : stream :=
  fold_left queue_step ops q.

(** Every entry of the log has been delivered to the group. *)
Definition drained (q : stream) : Prop :=
  last_delivered q = length (entries q).

(** The request [call_sync_vendor] posts for a job. *)
Definition sync_request (vc : VendorClient) (r : VendorRequest) : http_request :=
  {| url := sync_url vc ++ "/process";
     json := VDict [("job_id", VStr (job_id r));
                    ("payload", VDict (vr_payload r))] |}.

(** The value of [result.get("data", {})]. *)
Definition data_of (body : dict) : value :=
  match dict_get "data" body with
  | Some v => v
  | None => VDict []
  end.

End Props.

(** ** Concrete inputs *)

Module Examples.
Import PyStr Models Database Queue Worker Api Props.

Definition client : VendorClient :=
  {| sync_url := "http://localhost:8001";
     async_url := "http://localhost:8002";
     api_url := "http://localhost:8000";
     sync_rate_limiter :=
       {| calls_per_second := 5; last_call_time := S754_zero false;
          min_interval := S754_finite false 7205759403792794 (-55) |};
     async_rate_limiter :=
       {| calls_per_second := 3; last_call_time := S754_zero false;
          min_interval := S754_finite false 6004799503160661 (-54) |} |}.

Definition job_in (st : JobStatus) (res : value) (err : option string)
  : job_doc :=
  {| payload := [("x", VInt 1)]; status := st; created_at := 100;
     updated_at := 100; result := res; error := err |}.

Definition pending_store : collection := {[ "job-1" := job_in PENDING VNone None ]}.
Definition failed_store : collection :=
  {[ "job-1" := job_in FAILED VNone (Some "Sync vendor call failed") ]}.
Definition complete_store : collection :=
  {[ "job-1" := job_in COMPLETE (VDict [("r", VInt 1)]) None ]}.

Definition request : VendorRequest :=
  {| job_id := "job-1"; vr_payload := [("x", VInt 1)] |}.

(** The clock reading [1000.0]. *)
Definition clock_1000 : float := S754_finite false 8796093022208000 (-43).

(** An environment in which the hash of every job id is [h] and the HTTP
    peer gives [answer] to every request. *)
Definition env_with (h : Z) (answer : http_outcome) : environment :=
  {| str_hash := fun _ => h;
     http_post := fun _ => answer;
     time_enter := clock_1000; time_leave := clock_1000;
     utcnow_1 := 200; utcnow_2 := 300 |}.

(** A vendor answer [{"success": true, "data": data}] with status 200. *)
Definition success_with (data : value) : http_outcome :=
  Response 200 (Some (VDict [("success", VBool true); ("data", data)])).

(** Vendor data with untrimmed strings and identifying fields. *)
Definition raw_data : value :=
  VDict [("name", VStr "  John Doe  "); ("email", VStr "john@example.com");
         ("address", VDict [("city", VStr " Paris ");
                            ("phone_number", VStr "555 0100")]);
         ("orders", VList [VDict [("note", VStr " gift ")]]);
         ("visits", VInt 3)].

Definition untrimmed_data : value :=
  VDict [("tags", VList [VStr " a "]); ("ssn", VInt 123456789)].

(** Vendor data holding an integer beyond 64 bits. *)
Definition oversized_data : value := VDict [("n", VInt (2 ^ 63))].

Definition callback : WebhookRequest :=
  {| wh_job_id := "job-1"; wh_data := [("r", VInt 1)] |}.

(** A callback whose data holds an integer beyond 64 bits. *)
Definition oversized_callback : WebhookRequest :=
  {| wh_job_id := "job-1"; wh_data := [("n", VInt (2 ^ 63))] |}.

Definition one_entry_queue (vendor_type : string) : stream :=
  fst (enqueue_job empty_stream "job-1" [("x", VInt 1)] vendor_type "1700000000.0").

Definition worker_with (q : stream) : worker :=
  {| w_jobs := pending_store; w_queue := q; w_client := client |}.

End Examples.

(** ** api/main.py: status endpoint *)

Module StatusApi.
Import Models Database.

Inductive status_result :=
| StatusOK (job : JobStatusResponse)
| StatusError (status_code : Z) (detail : string).

(** [get_job_status], lines 68-84. *)
Definition get_job_status (jobs : collection) (request_id : string)
  : status_result :=
  match get_job jobs request_id with
  | Some job => StatusOK job
  | None => StatusError 404 "Job not found"
  end.

End StatusApi.

(** ** vendor_mocks/main.py *)

Module VendorMocks.
Import Models.

(** [ProcessRequest] *)
Record ProcessRequest := {
  p_job_id : string;
  p_payload : dict;
  p_webhook_url : option string
}.

(** [VendorMock]: the fixed-window counter of the mock. *)
Record VendorMock := {
  vendor_type : string;
  rate_limit_counter : Z;
  last_reset_time : Q
}.

(** [VendorMock.__init__]; [now] is [time.time()]. *)
Definition VendorMock_init (vendor_type : string) (now : Q) : VendorMock :=
  {| vendor_type := vendor_type; rate_limit_counter := 0;
     last_reset_time := now |}.

(** [VendorMock.check_rate_limit], lines 25-38. *)
Definition check_rate_limit (m : VendorMock) (max_calls_per_minute : Z)
    (current_time : Q) : VendorMock * bool :=
  let m1 :=
    if Qle_bool 60 (current_time - last_reset_time m)
    then {| vendor_type := vendor_type m; rate_limit_counter := 0;
            last_reset_time := current_time |}
    else m in
  if (max_calls_per_minute <=? rate_limit_counter m1)%Z then (m1, false)
  else
    ({| vendor_type := vendor_type m1;
        rate_limit_counter := rate_limit_counter m1 + 1;
        last_reset_time := last_reset_time m1 |}, true).

(** The random draws and clock readings of one [generate_mock_data]. *)
Record mock_draws := {
  processed_at : pyfloat;
  data_points : Z;
  confidence_score : pyfloat;
  processing_time_ms : Z;
  timestamp : pyfloat;
  with_user_info : bool        (* [random.random() < 0.3] *)
}.

(** [VendorMock.generate_mock_data], lines 40-71. *)
(** Draws within the ranges of [random.randint(5, 20)] and
    [random.randint(100, 500)]. *)
Definition draws_in_range (r : mock_draws) : Prop :=
  (5 <= data_points r <= 20)%Z /\ (100 <= processing_time_ms r <= 500)%Z.

Definition generate_mock_data (m : VendorMock) (pl : dict) (r : mock_draws)
  : dict :=
  let result :=
    [("status", VStr "success");
     ("data_points", VInt (data_points r));
     ("confidence_score", VFloat (confidence_score r));
     ("processing_time_ms", VInt (processing_time_ms r));
     ("metadata",
      VDict [("source", VStr (vendor_type m ++ "_vendor"));
             ("version", VStr "1.0.0");
             ("timestamp", VFloat (timestamp r))])] in
  let result :=
    if with_user_info r
    then dict_set "user_info"
           (VDict [("email", VStr "  user@example.com  ");
                   ("phone", VStr "555-123-4567");
                   ("name", VStr "  John Doe  ")])
           result
    else result in
  [("vendor_type", VStr (vendor_type m));
   ("processed_at", VFloat (processed_at r));
   ("input_payload", VDict pl);
   ("result", VDict result)].

(** What [process] gives: the response body, or the [HTTPException]. *)
Inductive mock_result :=
| MockOK (body : dict)
| MockError (status_code : Z) (detail : string).

(** [SyncVendorMock.process], lines 80-88. *)
Definition sync_process (m : VendorMock) (request : ProcessRequest)
    (current_time : Q) (r : mock_draws) : VendorMock * mock_result :=
  let '(m', allowed) := check_rate_limit m 100 current_time in
  if allowed
  then (m', MockOK [("success", VBool true);
                    ("data", VDict (generate_mock_data m' (p_payload request) r))])
  else (m', MockError 429 "Rate limit exceeded").

(** [AsyncVendorMock._process_async], lines 114-138: the callback it
    posts, to [webhook_url]. *)
Definition callback_body (m : VendorMock) (request : ProcessRequest)
    (r : mock_draws) : WebhookRequest :=
  {| wh_job_id := p_job_id request;
     wh_data := generate_mock_data m (p_payload request) r |}.

(** [AsyncVendorMock.process], lines 97-112.  The last component is the
    task started with [asyncio.create_task], given by the address it will
    post to. *)
Definition async_process (m : VendorMock) (request : ProcessRequest)
    (current_time : Q) : VendorMock * mock_result * option string :=
  let '(m', allowed) := check_rate_limit m 50 current_time in
  if allowed then
    match p_webhook_url request with
    | None => (m', MockError 400 "Webhook URL required for async vendor", None)
    | Some u =>
        if String.eqb u ""
        then (m', MockError 400 "Webhook URL required for async vendor", None)
        else (m', MockOK [("success", VBool true);
                          ("message", VStr "Request accepted for processing");
                          ("job_id", VStr (p_job_id request))],
              Some u)
    end
  else (m', MockError 429 "Rate limit exceeded", None).

(** A run of [check_rate_limit] at the given times with one limit. *)
Fixpoint check_all (m : VendorMock) (max_calls_per_minute : Z)
    (times : list Q) : VendorMock * list bool :=
  match times with
  | [] => (m, [])
  | t :: rest =>
      let '(m1, ok) := check_rate_limit m max_calls_per_minute t in
      let '(m2, oks) := check_all m1 max_calls_per_minute rest in
      (m2, ok :: oks)
  end.

End VendorMocks.

(** ** Definitions for further properties *)

Module More.
Import PyStr Models Database Queue Worker Api Props.

(** The worker loop of [Worker.run] for as many iterations as there are
    environments, one per iteration. *)
Definition run_iterations (envs : list environment) (w : worker) : worker :=
  fold_left (fun w env => run_iteration env w) envs w.

(** [process_job] on a list of requests in order, each in its environment,
    threading the store and the client. *)
Definition process_all (work : list (environment * VendorRequest))
    (jobs : collection) (vc : VendorClient) : collection * VendorClient :=
  fold_left
    (fun jc er =>
       let o := process_job (fst er) (snd jc) (fst jc) (snd er) in
       (jobs_after o, client_after o))
    work (jobs, vc).

(** The request [call_async_vendor] posts for a job. *)
Definition async_request (vc : VendorClient) (r : VendorRequest) : http_request :=
  {| url := async_url vc ++ "/process";
     json := VDict [("job_id", VStr (job_id r));
                    ("payload", VDict (vr_payload r));
                    ("webhook_url",
                     VStr (api_url vc ++ "/vendor-webhook/async"))] |}.

(** The value [call_sync_vendor] returns for an answer of the vendor. *)
Definition sync_result (answer : http_outcome) : value :=
  match answer with
  | TransportError => VNone
  | Response status_code body =>
      if (status_code =? 200)%Z
      then match body with Some v => v | None => VNone end
      else VNone
  end.

(** The request [dequeue_job] makes of an entry whose payload is a
    mapping. *)
Definition request_of (e : queue_entry) : option VendorRequest :=
  match e_payload e with
  | VDict pl => Some {| job_id := e_request_id e; vr_payload := pl |}
  | _ => None
  end.

(** The entries of the log not yet delivered to the group. *)
Definition undelivered (q : stream) : list queue_entry :=
  drop (last_delivered q) (entries q).

(** [enqueue_job] for each item in turn: request id, payload, selector
    and timestamp. *)
Definition enqueue_all (q : stream)
    (items : list (string * dict * string * string)) : stream :=
  fold_left
    (fun q item =>
       let '(request_id, pl, vendor_type, ts) := item in
       fst (enqueue_job q request_id pl vendor_type ts))
    items q.

(** [n] calls of [dequeue_job] and what each returned. *)
Fixpoint dequeue_many (n : nat) (q : stream)
  : stream * list (option VendorRequest) :=
  match n with
  | O => (q, [])
  | S n' =>
      let '(q1, r) := dequeue_job q in
      let '(q2, rs) := dequeue_many n' q1 in
      (q2, r :: rs)
  end.

(** What holds of a queue that only [enqueue_job] has written to and only
    [dequeue_job] has read from. *)
Definition queue_inv (q : stream) : Prop :=
  pending q = ∅
  /\ (last_delivered q <= length (entries q))%nat
  /\ Forall (fun e => is_dict (e_payload e) = true) (entries q).

Definition is_enqueue (op : queue_op) : bool :=
  match op with Enqueue _ _ _ _ => true | Dequeue => false end.

(** [None], a boolean or a number. *)
Definition is_scalar (v : value) : bool :=
  match v with
  | VNone | VBool _ | VInt _ | VFloat _ => true
  | _ => false
  end.

(** Every character is whitespace. *)
Fixpoint all_space (s : string) : bool :=
  match s with
  | EmptyString => true
  | String c s' => py_isspace c && all_space s'
  end.

(** The string is empty or its last character is not whitespace. *)
Fixpoint ends_clean (s : string) : Prop :=
  match s with
  | EmptyString => True
  | String c EmptyString => py_isspace c = false
  | String _ s' => ends_clean s'
  end.

(** The keys of every mapping in the value are distinct, as in a Python
    [dict]. *)
Fixpoint well_keyed (v : value) : Prop :=
  match v with
  | VList l => fold_right (fun x P => well_keyed x /\ P) True l
  | VDict d =>
      NoDup (map fst d)
      /\ fold_right (fun kv P => well_keyed (snd kv) /\ P) True d
  | _ => True
  end.

(** [v[k1][k2]...]: the value under a path of keys, if every step is a
    mapping that has the key. *)
Fixpoint path_get (path : list string) (v : value) : option value :=
  match path with
  | [] => Some v
  | k :: rest =>
      match v with
      | VDict d =>
          match dict_get k d with
          | Some x => path_get rest x
          | None => None
          end
      | _ => None
      end
  end.

(** The mock data of the synchronous vendor after [clean_vendor_data]. *)
Definition cleaned_mock_data (pl : dict) (r : VendorMocks.mock_draws) : value :=
  VDict
    [("vendor_type", VStr "sync");
     ("processed_at", VFloat (VendorMocks.processed_at r));
     ("input_payload", clean_vendor_data (VDict pl));
     ("result",
      VDict
        ([("status", VStr "success");
          ("data_points", VInt (VendorMocks.data_points r));
          ("confidence_score", VFloat (VendorMocks.confidence_score r));
          ("processing_time_ms", VInt (VendorMocks.processing_time_ms r));
          ("metadata",
           VDict [("source", VStr "sync_vendor");
                  ("version", VStr "1.0.0");
                  ("timestamp", VFloat (VendorMocks.timestamp r))])]
         ++ if VendorMocks.with_user_info r
            then [("user_info",
                   VDict [("email", VStr "[REDACTED]");
                          ("phone", VStr "[REDACTED]");
                          ("name", VStr "John Doe")])]
            else [])%list)].

(** The request of the worker as the vendor mock receives it. *)
Definition as_process_request (r : VendorRequest) (webhook_url : option string)
  : VendorMocks.ProcessRequest :=
  {| VendorMocks.p_job_id := job_id r;
     VendorMocks.p_payload := vr_payload r;
     VendorMocks.p_webhook_url := webhook_url |}.

(** The HTTP response the web framework makes of a result of the mock. *)
Definition as_http (m : VendorMocks.mock_result) : http_outcome :=
  match m with
  | VendorMocks.MockOK body => Response 200 (Some (VDict body))
  | VendorMocks.MockError code detail =>
      Response code (Some (VDict [("detail", VStr detail)]))
  end.

End More.

(** ** Concrete inputs for the vendor mocks *)

Module MockExamples.
Import Models Worker Props Examples More.

Definition sync_mock : VendorMocks.VendorMock :=
  VendorMocks.VendorMock_init "sync" 1000.

Definition async_mock : VendorMocks.VendorMock :=
  VendorMocks.VendorMock_init "async" 1000.

Definition draws : VendorMocks.mock_draws :=
  {| VendorMocks.processed_at := {| f_neg := false; f_mant := 17; f_exp := 8 |};
     VendorMocks.data_points := 7;
     VendorMocks.confidence_score :=
       {| f_neg := false; f_mant := 812; f_exp := -3 |};
     VendorMocks.processing_time_ms := 250;
     VendorMocks.timestamp := {| f_neg := false; f_mant := 17; f_exp := 8 |};
     VendorMocks.with_user_info := true |}.

(** An environment in which the synchronous vendor is [sync_mock] and the
    asynchronous vendor is [async_mock], both called at time 1001, and the
    hash of every job id is [h]. *)
Definition env_with_mocks (h : Z) : environment :=
  {| str_hash := fun _ => h;
     http_post :=
       fun req =>
         if String.eqb (url req) "http://localhost:8001/process"
         then as_http (snd (VendorMocks.sync_process sync_mock
                              (as_process_request request None) 1001 draws))
         else as_http (snd (fst (VendorMocks.async_process async_mock
                                   (as_process_request request
                                      (Some "http://localhost:8000/vendor-webhook/async"))
                                   1001)));
     time_enter := clock_1000; time_leave := clock_1000;
     utcnow_1 := 200; utcnow_2 := 300 |}.

End MockExamples.

(** * Properties *)

Import PyStr Models Database Queue Worker Api Props Examples.

(** ** Strings *)

Section Strings.

Lemma lstrip_starts_clean s : starts_clean (lstrip s).
Proof.
  induction s as [|c s IH]; simpl; [exact I|].
  destruct (py_isspace c) eqn:E; [exact IH | exact E].
Qed.

Lemma lstrip_id s : starts_clean s -> lstrip s = s.
Proof. destruct s as [|c s]; simpl; [easy|]. now intros ->. Qed.

Lemma rstrip_starts_clean s : starts_clean s -> starts_clean (rstrip s).
Proof.
  destruct s as [|c s]; simpl; [easy|]. intros Hc.
  destruct (rstrip s); simpl; [rewrite Hc; exact Hc | exact Hc].
Qed.

Lemma rstrip_idem s : rstrip (rstrip s) = rstrip s.
Proof.
  induction s as [|c s IH]; simpl; [reflexivity|].
  destruct (rstrip s) as [|c' r] eqn:E.
  - destruct (py_isspace c) eqn:Ec; simpl; [reflexivity | now rewrite Ec].
  - change (rstrip (String c (String c' r)))
      with (match rstrip (String c' r) with
            | EmptyString =>
                if py_isspace c then EmptyString else String c EmptyString
            | r0 => String c r0
            end).
    now rewrite IH.
Qed.

Lemma strip_idem s : strip (strip s) = strip s.
Proof.
  unfold strip.
  rewrite (lstrip_id (rstrip (lstrip s))).
  - apply rstrip_idem.
  - apply rstrip_starts_clean, lstrip_starts_clean.
Qed.

End Strings.

(** ** Values and dictionaries *)

Section Values.

(** Induction on values that reaches the items of sequences and the
    fields of mappings. *)
Lemma value_nested_ind (P : value -> Prop) :
  P VNone ->
  (forall b, P (VBool b)) ->
  (forall z, P (VInt z)) ->
  (forall f, P (VFloat f)) ->
  (forall s, P (VStr s)) ->
  (forall l, Forall P l -> P (VList l)) ->
  (forall d, Forall (fun kv => P (snd kv)) d -> P (VDict d)) ->
  forall v, P v.
Proof.
  intros HN HB HI HF HS HL HD.
  fix rec 1. intros [ | b | z | f | s | l | d ].
  - exact HN.
  - apply HB.
  - apply HI.
  - apply HF.
  - apply HS.
  - apply HL. induction l as [|x l IHl]; constructor; [apply rec | exact IHl].
  - apply HD. induction d as [|[k x] d IHd]; constructor;
      [apply rec | exact IHd].
Qed.

Lemma dict_set_keys_in k v d :
  In k (keys d) -> keys (dict_set k v d) = keys d.
Proof.
  induction d as [|[k' v'] d IH]; simpl; [easy|].
  intros Hin. destruct (String.eqb_spec k' k) as [->|Hne]; simpl; [reflexivity|].
  f_equal. apply IH. destruct Hin as [E|Hin]; [contradiction | exact Hin].
Qed.

Lemma dict_set_fresh k v d :
  ~ In k (keys d) -> dict_set k v d = (d ++ [(k, v)])%list.
Proof.
  induction d as [|[k' v'] d IH]; simpl; [reflexivity|].
  intros Hnin. destruct (String.eqb_spec k' k) as [->|Hne].
  - exfalso. apply Hnin. now left.
  - f_equal. apply IH. intros Hin. apply Hnin. now right.
Qed.

Lemma dict_set_keys_NoDup k v d : NoDup (keys d) -> NoDup (keys (dict_set k v d)).
Proof.
  intros Hd. destruct (in_dec string_dec k (keys d)) as [Hin|Hnin].
  - now rewrite dict_set_keys_in.
  - rewrite dict_set_fresh by exact Hnin. unfold keys in *.
    rewrite map_app. simpl. apply NoDup_app. repeat split.
    + exact Hd.
    + intros x Hx Hx'. apply list_elem_of_In in Hx, Hx'.
      destruct Hx' as [<-|[]]. contradiction.
    + apply NoDup_singleton.
Qed.

Lemma dict_set_Forall (Q : string * value -> Prop) k v d :
  Forall Q d -> Q (k, v) -> Forall Q (dict_set k v d).
Proof.
  intros Hd Hkv. induction Hd as [|[k' v'] d Hx Hd IH]; simpl.
  - now constructor.
  - destruct (String.eqb k' k); constructor; auto.
Qed.

Lemma dict_fold_keys_NoDup g d acc :
  NoDup (keys acc) -> NoDup (keys (dict_fold g d acc)).
Proof.
  revert acc. induction d as [|[k v] d IH]; intros acc Hacc; simpl; [exact Hacc|].
  apply IH. now apply dict_set_keys_NoDup.
Qed.

Lemma dict_fold_Forall (Q : string * value -> Prop) g d acc :
  Forall Q acc ->
  Forall (fun kv => Q (fst kv, g (fst kv) (snd kv))) d ->
  Forall Q (dict_fold g d acc).
Proof.
  revert acc. induction d as [|[k v] d IH]; intros acc Hacc Hd; simpl; [exact Hacc|].
  inversion Hd as [|? ? Hkv Hd']; subst. apply IH; [|exact Hd'].
  now apply dict_set_Forall.
Qed.

(** On a mapping whose keys are distinct the loop is a map over the
    items, in order. *)
Lemma dict_fold_NoDup g d acc :
  NoDup (keys (acc ++ d)%list) ->
  dict_fold g d acc
  = (acc ++ map (fun kv => (fst kv, g (fst kv) (snd kv))) d)%list.
Proof.
  revert acc. induction d as [|[k v] d IH]; intros acc Hnd; simpl.
  - now rewrite app_nil_r.
  - unfold keys in Hnd. rewrite map_app in Hnd. simpl in Hnd.
    assert (Hk : ~ In k (keys acc)).
    { apply NoDup_app in Hnd as (_ & Hdisj & _).
      intros Hin. apply (Hdisj k); [now apply list_elem_of_In|]. left. }
    change (dict_fold g d (dict_set k (g k v) acc)
            = (acc ++ (k, g k v)
                 :: map (fun kv => (fst kv, g (fst kv) (snd kv))) d)%list).
    rewrite dict_set_fresh by exact Hk. rewrite IH.
    + now rewrite <- app_assoc.
    + unfold keys. rewrite <- app_assoc. simpl. now rewrite map_app.
Qed.

(** [clean_vendor_data] on a mapping, with the loop body named. *)
Lemma clean_vendor_data_dict d :
  clean_vendor_data (VDict d) = VDict (dict_fold clean_field d []).
Proof.
  simpl. f_equal. unfold dict_fold. generalize (@nil (string * value)).
  induction d as [|[k v] d IH]; intros acc; simpl; [reflexivity|].
  rewrite IH. f_equal. destruct v; reflexivity.
Qed.

Lemma clean_vendor_data_not_dict v :
  is_dict v = false -> clean_vendor_data v = v.
Proof. destruct v; simpl; intros H; (reflexivity || discriminate). Qed.

Lemma clean_vendor_data_is_dict v :
  is_dict (clean_vendor_data v) = is_dict v.
Proof. destruct v; reflexivity. Qed.

Lemma clean_item_dict v : is_dict v = true -> clean_item v = clean_vendor_data v.
Proof. destruct v; simpl; intros H; (reflexivity || discriminate). Qed.

Lemma clean_field_dict k v : is_dict v = true -> clean_field k v = clean_vendor_data v.
Proof. destruct v; simpl; intros H; (reflexivity || discriminate). Qed.

(** The value stored under a key is a fixed point of the loop body. *)
Lemma clean_field_idem v : forall k, clean_field k (clean_field k v) = clean_field k v.
Proof.
  induction v as [ | b | z | f | s | l IHl | d IHd ] using value_nested_ind;
    intros k; try reflexivity.
  - simpl. destruct (is_pii_key k); [reflexivity | now rewrite strip_idem].
  - simpl. f_equal. rewrite map_map. apply map_ext_Forall.
    eapply Forall_impl; [exact IHl|]. intros x Hx.
    destruct x as [ | | | | | | d0 ]; try reflexivity.
    specialize (Hx "").
    change (clean_item (VDict d0)) with (clean_vendor_data (VDict d0)).
    change (clean_field "" (VDict d0)) with (clean_vendor_data (VDict d0)) in Hx.
    rewrite clean_vendor_data_dict in *. exact Hx.
  - change (clean_field k (VDict d)) with (clean_vendor_data (VDict d)).
    rewrite clean_vendor_data_dict.
    change (clean_field k (VDict (dict_fold clean_field d [])))
      with (clean_vendor_data (VDict (dict_fold clean_field d []))).
    rewrite clean_vendor_data_dict. f_equal.
    rewrite dict_fold_NoDup
      by (simpl; apply dict_fold_keys_NoDup; constructor).
    simpl. rewrite <- (map_id (dict_fold clean_field d [])) at 2.
    apply map_ext_Forall.
    apply (dict_fold_Forall
             (fun kv => (fst kv, clean_field (fst kv) (snd kv)) = kv)).
    + constructor.
    + eapply Forall_impl; [exact IHd|]. intros [k' x] Hx. simpl in *.
      now rewrite Hx.
Qed.

End Values.

(** ** Equality tests *)

Section Equality.

Lemma pyfloat_eqb_eq x y : pyfloat_eqb x y = true <-> x = y.
Proof.
  destruct x as [n m e], y as [n' m' e']. unfold pyfloat_eqb. simpl.
  rewrite !andb_true_iff, Bool.eqb_true_iff, N.eqb_eq, Z.eqb_eq.
  split; [intros [[-> ->] ->]; reflexivity | intros [= -> -> ->]; auto].
Qed.

Lemma value_eqb_eq a : forall b, value_eqb a b = true <-> a = b.
Proof.
  induction a as [ | x | x | x | x | l IHl | d IHd ] using value_nested_ind;
    intros b; destruct b as [ | y | y | y | y | l' | d' ]; simpl;
    try (split; [discriminate | intros [=]]); try tauto.
  - rewrite Bool.eqb_true_iff. split; [intros -> | intros [= ->]]; reflexivity.
  - rewrite Z.eqb_eq. split; [intros -> | intros [= ->]]; reflexivity.
  - rewrite pyfloat_eqb_eq. split; [intros -> | intros [= ->]]; reflexivity.
  - rewrite String.eqb_eq. split; [intros -> | intros [= ->]]; reflexivity.
  - revert l'. induction IHl as [|u l Hu _ IH]; intros [|v l']; simpl;
      try (split; [discriminate | intros [=]]); try tauto.
    rewrite andb_true_iff, Hu, IH.
    split; [intros [-> [= ->]] | intros [= -> ->]]; auto.
  - revert d'. induction IHd as [|[k u] d Hu _ IH]; intros [|[k' v] d']; simpl;
      try (split; [discriminate | intros [=]]); try tauto.
    simpl in Hu. rewrite !andb_true_iff, String.eqb_eq, Hu, IH.
    split; [intros [[-> ->] [= ->]] | intros [= -> -> ->]]; auto.
Qed.

Lemma job_doc_eqb_eq a b : job_doc_eqb a b = true <-> a = b.
Proof.
  destruct a as [p s c u r e], b as [p' s' c' u' r' e']. unfold job_doc_eqb.
  cbn [payload status created_at updated_at result error].
  rewrite !andb_true_iff, !value_eqb_eq, !Z.eqb_eq.
  assert (Hs : JobStatus_eqb s s' = true <-> s = s')
    by (destruct s, s'; simpl; split; (reflexivity || discriminate)).
  assert (He : option_string_eqb e e' = true <-> e = e').
  { destruct e as [x|], e' as [y|]; simpl;
      try (split; (reflexivity || discriminate)).
    rewrite String.eqb_eq. split; [intros -> | intros [= ->]]; reflexivity. }
  rewrite Hs, He.
  split; [intros [[[[[[= ->] ->] ->] ->] ->] ->] | intros [= -> -> -> -> -> ->]];
    auto 10.
Qed.

Lemma update_encodable_of st res err now :
  update_encodable (update_of st res err now) = bson_encodable res.
Proof. destruct res; reflexivity. Qed.

(** [update_job_status] reports success exactly when the driver encodes
    the result, the job is in the store and the update changed its
    document. *)
Lemma update_job_status_snd (jobs : gmap string job_doc) id st res err now :
  snd (update_job_status jobs id st res err now) = true
  <-> bson_encodable res = true
      /\ exists d, jobs !! id = Some d
                   /\ apply_set (update_of st res err now) d <> d.
Proof.
  unfold update_job_status, update_one. fold (update_of st res err now).
  rewrite update_encodable_of.
  destruct (bson_encodable res); simpl;
    [|split; [discriminate | intros [[=] _]]].
  destruct (jobs !! id) as [d|]; simpl.
  - destruct (job_doc_eqb d (apply_set (update_of st res err now) d)) eqn:E; simpl.
    + apply job_doc_eqb_eq in E. split; [discriminate|].
      intros (_ & d' & [= <-] & Hne). congruence.
    + split; [|reflexivity]. intros _. split; [reflexivity|].
      exists d. split; [reflexivity|].
      intros Heq. rewrite Heq in E at 1.
      assert (job_doc_eqb (apply_set (update_of st res err now) d)
                (apply_set (update_of st res err now) d) = true)
        by now apply job_doc_eqb_eq.
      congruence.
  - split; [discriminate | intros (_ & d & [=] & _)].
Qed.

End Equality.

(** ** The sanitizer *)

Section Sanitizer.

Lemma sanitized_dict d :
  sanitized (VDict d) = forallb (fun kv => field_sanitized (fst kv) (snd kv)) d.
Proof. reflexivity. Qed.

Lemma field_sanitized_clean v : forall k, field_sanitized k (clean_field k v) = true.
Proof.
  induction v as [ | b | z | f | s | l IHl | d IHd ] using value_nested_ind;
    intros k; try reflexivity.
  - simpl. destruct (is_pii_key k).
    + reflexivity.
    + rewrite strip_idem. apply String.eqb_refl.
  - simpl. apply forallb_forall. intros y Hy.
    apply in_map_iff in Hy as (x & <- & Hx).
    rewrite Forall_forall in IHl.
    apply list_elem_of_In in Hx. specialize (IHl x Hx "").
    destruct x as [ | | | | | | d0 ]; try reflexivity.
    change (clean_item (VDict d0)) with (clean_vendor_data (VDict d0)).
    change (clean_field "" (VDict d0)) with (clean_vendor_data (VDict d0)) in IHl.
    rewrite clean_vendor_data_dict in *. exact IHl.
  - change (clean_field k (VDict d)) with (clean_vendor_data (VDict d)).
    rewrite clean_vendor_data_dict.
    change (sanitized (VDict (dict_fold clean_field d [])) = true).
    rewrite sanitized_dict. apply forallb_forall. intros kv Hkv.
    assert (H : Forall (fun kv => field_sanitized (fst kv) (snd kv) = true)
                  (dict_fold clean_field d [])).
    { apply dict_fold_Forall; [constructor|].
      eapply Forall_impl; [exact IHd|]. intros [k' x] Hx. apply Hx. }
    rewrite Forall_forall in H. apply H. now apply list_elem_of_In.
Qed.

Lemma sanitized_clean v : sanitized (clean_vendor_data v) = true.
Proof.
  destruct v as [ | | | | | | d ]; try reflexivity.
  exact (field_sanitized_clean (VDict d) "").
Qed.

Lemma clean_vendor_data_shape v :
  clean_vendor_data v
  = match v with
    | VDict fields => VDict (dict_fold clean_field fields [])
    | _ => v
    end.
Proof. destruct v; try reflexivity. apply clean_vendor_data_dict. Qed.

End Sanitizer.

(** ** The job store *)

Section Store.

(** A result that the driver does not encode: the exception is caught,
    nothing is written and the answer is [False]. *)
Lemma update_job_status_unencodable (jobs : gmap string job_doc)
    id st res err now :
  bson_encodable res = false ->
  update_job_status jobs id st res err now = (jobs, false).
Proof.
  intros H. unfold update_job_status, update_one.
  fold (update_of st res err now).
  now rewrite update_encodable_of, H.
Qed.

Lemma update_job_status_fst (jobs : gmap string job_doc) id st res err now :
  fst (update_job_status jobs id st res err now)
  = if bson_encodable res
    then match jobs !! id with
         | None => jobs
         | Some d => <[id := apply_set (update_of st res err now) d]> jobs
         end
    else jobs.
Proof.
  unfold update_job_status, update_one.
  fold (update_of st res err now). rewrite update_encodable_of.
  destruct (bson_encodable res); [|reflexivity].
  destruct (jobs !! id); reflexivity.
Qed.

Lemma update_job_status_snd_absent (jobs : gmap string job_doc) id st res err now :
  jobs !! id = None -> update_job_status jobs id st res err now = (jobs, false).
Proof.
  intros H. unfold update_job_status, update_one.
  rewrite H. now destruct (update_encodable _).
Qed.

Lemma update_job_status_lookup (jobs : gmap string job_doc) id st res err now j :
  fst (update_job_status jobs id st res err now) !! j
  = if bson_encodable res
    then if decide (j = id)
         then apply_set (update_of st res err now) <$> jobs !! j
         else jobs !! j
    else jobs !! j.
Proof.
  rewrite update_job_status_fst.
  destruct (bson_encodable res); [|reflexivity].
  destruct (decide (j = id)) as [->|Hne].
  - destruct (jobs !! id) eqn:E.
    + now rewrite lookup_insert_eq.
    + now rewrite E.
  - destruct (jobs !! id); [|reflexivity].
    now rewrite lookup_insert_ne.
Qed.

Lemma update_job_status_lookup_eq (jobs : gmap string job_doc) id st res err now :
  fst (update_job_status jobs id st res err now) !! id
  = if bson_encodable res
    then apply_set (update_of st res err now) <$> jobs !! id
    else jobs !! id.
Proof. rewrite update_job_status_lookup. now rewrite decide_True. Qed.

Lemma update_job_status_lookup_ne (jobs : gmap string job_doc)
    id st res err now j :
  j <> id -> fst (update_job_status jobs id st res err now) !! j = jobs !! j.
Proof.
  intros Hj. rewrite update_job_status_lookup, decide_False by exact Hj.
  now destruct (bson_encodable res).
Qed.

Lemma create_job_fresh (jobs : gmap string job_doc) id pl now :
  jobs !! id = None ->
  bson_encodable (VDict pl) = true ->
  Database.create_job jobs id pl now
  = (<[id := {| payload := pl; status := PENDING; created_at := now;
                updated_at := now; result := VNone; error := None |}]> jobs,
     true).
Proof.
  intros H Hpl. unfold Database.create_job, insert_one, doc_encodable.
  cbn [payload result]. rewrite Hpl, H. reflexivity.
Qed.

Lemma create_job_existing (jobs : gmap string job_doc) id pl now d :
  jobs !! id = Some d -> Database.create_job jobs id pl now = (jobs, false).
Proof.
  intros H. unfold Database.create_job, insert_one. rewrite H.
  now destruct (doc_encodable _).
Qed.

Lemma create_job_unencodable (jobs : gmap string job_doc) id pl now :
  bson_encodable (VDict pl) = false ->
  Database.create_job jobs id pl now = (jobs, false).
Proof.
  intros Hpl. unfold Database.create_job, insert_one, doc_encodable.
  cbn [payload result]. now rewrite Hpl.
Qed.

(** Sanitizing keeps what the driver encodes encodable. *)
Lemma clean_field_encodable v :
  bson_encodable v = true -> forall k, bson_encodable (clean_field k v) = true.
Proof.
  induction v as [ | b | z | f | s | l IHl | d IHd ] using value_nested_ind;
    intros Hv k; try exact Hv.
  - cbn [clean_field bson_encodable] in *. apply forallb_forall.
    intros y Hy. apply in_map_iff in Hy as (x & <- & Hx).
    rewrite forallb_forall in Hv. specialize (Hv x Hx).
    rewrite Forall_forall in IHl. apply list_elem_of_In in Hx.
    specialize (IHl x Hx Hv "").
    destruct x; try exact Hv. exact IHl.
  - change (clean_field k (VDict d)) with (clean_vendor_data (VDict d)).
    rewrite clean_vendor_data_dict. cbn [bson_encodable] in *.
    apply forallb_forall. intros kv Hkv.
    assert (H : Forall (fun kv => negb (has_nul (fst kv))
                                  && bson_encodable (snd kv) = true)
                  (dict_fold clean_field d [])).
    { apply dict_fold_Forall; [constructor|].
      rewrite Forall_forall in IHd. apply Forall_forall. intros [k' x] Hx.
      rewrite forallb_forall in Hv.
      pose proof (Hv (k', x) (proj1 (list_elem_of_In _ _) Hx)) as Hkx.
      cbn [fst snd] in *. apply andb_true_iff in Hkx as [Hk' Hx'].
      rewrite Hk'. exact (IHd (k', x) Hx Hx' k'). }
    rewrite Forall_forall in H. apply H. now apply list_elem_of_In.
Qed.

Lemma clean_vendor_data_encodable v :
  bson_encodable v = true -> bson_encodable (clean_vendor_data v) = true.
Proof.
  intros Hv. destruct v as [ | | | | | | d ]; try exact Hv.
  exact (clean_field_encodable (VDict d) Hv "").
Qed.

End Store.

(** ** Claims about the job store *)

(** C6.  A call of [update_job_status] that supplies only a status (the
    result and error arguments left at their default [None]) writes, in the
    job named by the request id, the status and [updated_at] and nothing
    else: the stored result and error of every job are what they were, and
    so are the payload and [created_at]; other jobs are untouched. *)
Theorem update_status_only_keeps_result_and_error
    (jobs : gmap string job_doc) (id : string) (st : JobStatus) (now : Z)
    (j : string) :
  let jobs' := fst (update_job_status jobs id st VNone None now) in
  jobs' !! j
  = (if decide (j = id)
     then (fun d => {| payload := payload d; status := st;
                       created_at := created_at d; updated_at := now;
                       result := result d; error := error d |}) <$> jobs !! j
     else jobs !! j)
  /\ result <$> jobs' !! j = result <$> jobs !! j
  /\ error <$> jobs' !! j = error <$> jobs !! j.
Proof.
  cbv zeta. rewrite update_job_status_lookup. cbn [bson_encodable].
  destruct (decide (j = id)) as [->|Hne]; [|auto].
  destruct (jobs !! id) as [d|]; simpl; auto.
Qed.

(** C9.  [create_job] with a request id that is already in the store returns
    failure and leaves the store as it was.  A first [create_job] with a new
    id succeeds exactly when the driver of the store encodes its payload,
    and a second [create_job] with the same id then fails and changes
    nothing.  [get_job] with an id that is not in the store returns
    [None]. *)
Theorem create_job_twice_fails_get_job_unknown
    (jobs : gmap string job_doc) (id : string) :
  (forall d pl now,
      jobs !! id = Some d -> Database.create_job jobs id pl now = (jobs, false))
  /\ (forall pl1 now1 pl2 now2,
         jobs !! id = None ->
         let jobs1 := fst (Database.create_job jobs id pl1 now1) in
         snd (Database.create_job jobs id pl1 now1)
         = bson_encodable (VDict pl1)
         /\ (bson_encodable (VDict pl1) = true ->
             Database.create_job jobs1 id pl2 now2 = (jobs1, false)))
  /\ (jobs !! id = None -> get_job jobs id = None).
Proof.
  split; [|split].
  - intros d pl now H. now apply create_job_existing with d.
  - intros pl1 now1 pl2 now2 H. cbv zeta.
    destruct (bson_encodable (VDict pl1)) eqn:Hpl.
    + rewrite (create_job_fresh jobs id pl1 now1 H Hpl). cbn [fst snd].
      split; [reflexivity|]. intros _.
      eapply create_job_existing. apply lookup_insert_eq.
    + rewrite (create_job_unencodable jobs id pl1 now1 Hpl).
      split; [reflexivity | discriminate].
  - intros H. unfold get_job. now rewrite H.
Qed.

Lemma create_job_twice_fails_get_job_unknown_witness :
  Database.create_job pending_store "job-1" [] 500 = (pending_store, false)
  /\ (snd (Database.create_job pending_store "job-2" [] 500) = true
      /\ Database.create_job (fst (Database.create_job pending_store "job-2" [] 500)) "job-2"
           [("y", VInt 2)] 600
         = (fst (Database.create_job pending_store "job-2" [] 500), false))
  /\ get_job pending_store "job-2" = None.
Proof.
  split; [|split].
  - apply (proj1 (create_job_twice_fails_get_job_unknown pending_store "job-1")
             (job_in PENDING VNone None)).
    reflexivity.
  - destruct (proj1 (proj2 (create_job_twice_fails_get_job_unknown
                              pending_store "job-2"))
                [] 500 [("y", VInt 2)] 600) as [A B]; [reflexivity|].
    split; [exact A | apply B; reflexivity].
  - apply (proj2 (proj2 (create_job_twice_fails_get_job_unknown
                           pending_store "job-2"))).
    reflexivity.
Defined.

(** C4, as the code has it.  The webhook completion handler, for a job id
    that is in the store and callback data that the driver of the store
    encodes, writes status [COMPLETE] and the callback's data as the result,
    as it came and whatever the job's status was (only [updated_at] changes
    besides).  For a job id that is not in the store, and also for data that
    the driver does not encode, it answers 404 and the store is unchanged. *)
Theorem webhook_writes_complete_or_not_found
    (jobs : gmap string job_doc) (vendor : string) (w : WebhookRequest)
    (now : Z) :
  (forall d,
      jobs !! wh_job_id w = Some d ->
      bson_encodable (VDict (wh_data w)) = true ->
      fst (vendor_webhook jobs vendor w now) !! wh_job_id w
      = Some {| payload := payload d; status := COMPLETE;
                created_at := created_at d; updated_at := now;
                result := VDict (wh_data w); error := error d |})
  /\ (jobs !! wh_job_id w = None
      \/ bson_encodable (VDict (wh_data w)) = false ->
      vendor_webhook jobs vendor w now
      = (jobs, HTTPException 404 "Job not found")).
Proof.
  split.
  - intros d H Henc. unfold vendor_webhook.
    pose proof (update_job_status_lookup_eq jobs (wh_job_id w) COMPLETE
                  (VDict (wh_data w)) None now) as L.
    destruct (update_job_status jobs (wh_job_id w) COMPLETE
                (VDict (wh_data w)) None now) as [jobs' updated].
    rewrite Henc in L. simpl in L. rewrite H in L. simpl in L.
    destruct updated; exact L.
  - intros [H | H]; unfold vendor_webhook.
    + now rewrite update_job_status_snd_absent.
    + now rewrite update_job_status_unencodable.
Qed.

Lemma webhook_writes_complete_or_not_found_witness :
  fst (vendor_webhook failed_store "async" callback 400) !! "job-1"
  = Some {| payload := [("x", VInt 1)]; status := COMPLETE;
            created_at := 100; updated_at := 400;
            result := VDict [("r", VInt 1)];
            error := Some "Sync vendor call failed" |}
  /\ vendor_webhook (∅ : gmap string job_doc) "async" callback 400
     = (∅, HTTPException 404 "Job not found").
Proof.
  split.
  - apply (proj1 (webhook_writes_complete_or_not_found
                    failed_store "async" callback 400)
             (job_in FAILED VNone (Some "Sync vendor call failed"))).
    + reflexivity.
    + reflexivity.
  - apply (proj2 (webhook_writes_complete_or_not_found ∅ "async" callback 400)).
    left. reflexivity.
Defined.

(** C4 as stated fails: the job is in the store, yet for callback data that
    holds the integer 2^63 the handler answers 404 and writes nothing. *)
Lemma webhook_existing_job_answers_not_found :
  failed_store !! "job-1"
  = Some (job_in FAILED VNone (Some "Sync vendor call failed"))
  /\ vendor_webhook failed_store "async" oversized_callback 400
     = (failed_store, HTTPException 404 "Job not found")
  /\ result <$> fst (vendor_webhook failed_store "async" oversized_callback 400)
                 !! "job-1"
     <> Some (VDict (wh_data oversized_callback)).
Proof. vm_compute. repeat split. discriminate. Qed.

(** ** Claims about the sanitizer and the synchronous path *)

(** C10.  [clean_vendor_data] is idempotent: cleaning a cleaned value gives
    the cleaned value again (for every mapping, and for every other value
    as well); an input that is not a mapping is returned as it is. *)
Theorem clean_vendor_data_idempotent (x : value) :
  clean_vendor_data (clean_vendor_data x) = clean_vendor_data x
  /\ (is_dict x = false -> clean_vendor_data x = x).
Proof.
  split; [|apply clean_vendor_data_not_dict].
  destruct x as [ | | | | | | d ]; try reflexivity.
  exact (clean_field_idem (VDict d) "").
Qed.

Lemma clean_vendor_data_idempotent_witness :
  clean_vendor_data (VList [VStr " a "]) = VList [VStr " a "].
Proof.
  apply (proj2 (clean_vendor_data_idempotent (VList [VStr " a "]))).
  reflexivity.
Defined.

Section SyncPath.

Variables (env : environment) (vc : VendorClient).
Variables (jobs : gmap string job_doc) (r : VendorRequest).

Hypothesis routed_sync : (str_hash env (job_id r) mod 2 = 0)%Z.

(** The job's document after [process_job] on the synchronous branch, in
    terms of the value [call_sync_vendor] returned.  A cleaned result that
    the driver does not encode is not written. *)
Lemma process_job_sync_lookup :
  let result := snd (call_sync_vendor env vc r) in
  let final : job_doc -> job_doc :=
    if truthy result then
      match result with
      | VDict body =>
          let cleaned := clean_vendor_data (data_of body) in
          if bson_encodable cleaned
          then apply_set (update_of COMPLETE cleaned None (utcnow_2 env))
          else fun d => d
      | _ => apply_set (update_of FAILED VNone
                          (Some (no_get_attribute result)) (utcnow_2 env))
      end
    else apply_set (update_of FAILED VNone (Some "Sync vendor call failed")
                      (utcnow_2 env)) in
  jobs_after (process_job env vc jobs r) !! job_id r
  = (fun d => final
                (apply_set (update_of PROCESSING VNone None (utcnow_1 env)) d))
    <$> jobs !! job_id r.
Proof.
  unfold process_job. cbv zeta. rewrite routed_sync. cbn [Z.eqb].
  change (String.eqb "sync" "sync") with true. cbv iota.
  destruct (call_sync_vendor env vc r) as [[vc' request] result]. cbn [snd].
  cbn [jobs_after].
  destruct (truthy result).
  - destruct result; rewrite !update_job_status_lookup_eq;
      cbn [bson_encodable];
      try (destruct (jobs !! job_id r); reflexivity).
    fold (data_of d).
    destruct (bson_encodable (clean_vendor_data (data_of d)));
      destruct (jobs !! job_id r); reflexivity.
  - rewrite !update_job_status_lookup_eq. cbn [bson_encodable].
    destruct (jobs !! job_id r); reflexivity.
Qed.

Lemma call_sync_vendor_result :
  snd (call_sync_vendor env vc r)
  = match http_post env (sync_request vc r) with
    | TransportError => VNone
    | Response status_code body =>
        if (status_code =? 200)%Z
        then match body with Some v => v | None => VNone end
        else VNone
    end.
Proof. reflexivity. Qed.

End SyncPath.

(** C1 (as the code has it).  For a job that is in the store and is routed
    to the synchronous vendor, when the call returns status 200 with a
    non-empty JSON object whose [data] field the driver of the store
    encodes, the final status is [COMPLETE] and the stored result is
    [clean_vendor_data] of that field (the previous result stays when that
    is [None]).  In the cleaned value a string stored
    directly under a key is the redaction marker when the key matches an
    identifying-information pattern and is trimmed otherwise, and this holds
    again inside mappings stored under a key and inside mappings that are
    items of a sequence stored under a key; every other value is kept as the
    vendor sent it. *)
Theorem sync_success_stores_cleaned_data
    (env : environment) (vc : VendorClient) (jobs : gmap string job_doc)
    (r : VendorRequest) (d : job_doc) (body : dict) :
  jobs !! job_id r = Some d ->
  (str_hash env (job_id r) mod 2 = 0)%Z ->
  http_post env (sync_request vc r) = Response 200 (Some (VDict body)) ->
  body <> [] ->
  bson_encodable (data_of body) = true ->
  let data := data_of body in
  let cleaned := clean_vendor_data data in
  exists d',
    jobs_after (process_job env vc jobs r) !! job_id r = Some d'
    /\ status d' = COMPLETE
    /\ result d' = match cleaned with VNone => result d | _ => cleaned end
    /\ cleaned = match data with
                 | VDict fields => VDict (dict_fold clean_field fields [])
                 | _ => data
                 end
    /\ sanitized cleaned = true.
Proof.
  intros Hjob Hhash Hpost Hbody Henc data cleaned.
  pose proof (process_job_sync_lookup env vc jobs r Hhash) as L.
  cbv zeta in L. rewrite call_sync_vendor_result, Hpost in L.
  cbn [Z.eqb Pos.eqb] in L.
  assert (Ht : truthy (VDict body) = true) by (destruct body; [contradiction | reflexivity]).
  rewrite Ht, Hjob, (clean_vendor_data_encodable _ Henc) in L.
  cbn [fmap option_fmap option_map] in L.
  eexists. split; [exact L|]. fold data. fold cleaned.
  split; [reflexivity|]. split.
  - cbn [apply_set update_of set_result result]. destruct cleaned; reflexivity.
  - split; [apply clean_vendor_data_shape | apply sanitized_clean].
Qed.

Lemma sync_success_stores_cleaned_data_witness :
  exists d',
    jobs_after (process_job (env_with 0 (success_with raw_data)) client
                  pending_store request) !! "job-1" = Some d'
    /\ status d' = COMPLETE
    /\ result d'
       = VDict [("name", VStr "John Doe"); ("email", VStr "[REDACTED]");
                ("address", VDict [("city", VStr "Paris");
                                   ("phone_number", VStr "[REDACTED]")]);
                ("orders", VList [VDict [("note", VStr "gift")]]);
                ("visits", VInt 3)].
Proof.
  destruct (sync_success_stores_cleaned_data
              (env_with 0 (success_with raw_data)) client pending_store
              request (job_in PENDING VNone None)
              [("success", VBool true); ("data", raw_data)])
    as (d' & L & S & R & _);
    [reflexivity | reflexivity | reflexivity | discriminate | reflexivity |].
  exists d'. split; [exact L|]. split; [exact S | exact R].
Defined.

(** C1, counterexample.  The vendor answers 200 with
    [{"success": true, "data": {"tags": [" a "], "ssn": 123456789}}]: the job
    becomes [COMPLETE] and the stored result is the data unchanged, with an
    untrimmed string inside the sequence and an unredacted value under the
    key [ssn]. *)
Lemma sync_success_result_not_fully_sanitized :
  let jobs' :=
    jobs_after (process_job (env_with 0 (success_with untrimmed_data)) client
                  pending_store request) in
  status <$> jobs' !! "job-1" = Some COMPLETE
  /\ result <$> jobs' !! "job-1"
     = Some (VDict [("tags", VList [VStr " a "]); ("ssn", VInt 123456789)])
  /\ is_pii_key "ssn" = true
  /\ strip " a " <> " a "
  /\ fully_sanitized
       (VDict [("tags", VList [VStr " a "]); ("ssn", VInt 123456789)]) = false.
Proof. vm_compute. repeat split; discriminate. Qed.

(** C8.  For a job that is in the store and is routed to the synchronous
    vendor, when the vendor call fails at the transport level or returns a
    status other than 200, the final status is [FAILED] and the error field
    holds a non-empty text. *)
Theorem sync_failure_marks_job_failed
    (env : environment) (vc : VendorClient) (jobs : gmap string job_doc)
    (r : VendorRequest) (d : job_doc) :
  jobs !! job_id r = Some d ->
  (str_hash env (job_id r) mod 2 = 0)%Z ->
  (http_post env (sync_request vc r) = TransportError
   \/ exists code body,
        http_post env (sync_request vc r) = Response code body
        /\ code <> 200%Z) ->
  exists d' e,
    jobs_after (process_job env vc jobs r) !! job_id r = Some d'
    /\ status d' = FAILED
    /\ error d' = Some e
    /\ e = "Sync vendor call failed"
    /\ e <> "".
Proof.
  intros Hjob Hhash Hfail.
  pose proof (process_job_sync_lookup env vc jobs r Hhash) as L.
  cbv zeta in L. rewrite call_sync_vendor_result in L.
  assert (Hres : match http_post env (sync_request vc r) with
                 | TransportError => VNone
                 | Response status_code body =>
                     if (status_code =? 200)%Z
                     then match body with Some v => v | None => VNone end
                     else VNone
                 end = VNone).
  { destruct Hfail as [->|(code & body & -> & Hcode)]; [reflexivity|].
    apply Z.eqb_neq in Hcode. now rewrite Hcode. }
  rewrite Hres, Hjob in L. cbn [truthy fmap option_fmap option_map] in L.
  eexists. exists "Sync vendor call failed".
  split; [exact L|]. repeat split. discriminate.
Qed.

Lemma sync_failure_marks_job_failed_witness :
  exists d' e,
    jobs_after (process_job (env_with 0 (Response 500 None)) client
                  pending_store request) !! "job-1" = Some d'
    /\ status d' = FAILED
    /\ error d' = Some e
    /\ e = "Sync vendor call failed"
    /\ e <> "".
Proof.
  apply (sync_failure_marks_job_failed (env_with 0 (Response 500 None)) client
           pending_store request (job_in PENDING VNone None)).
  - reflexivity.
  - reflexivity.
  - right. exists 500%Z, None. split; [reflexivity | discriminate].
Defined.

(** ** Claims about the job state machine *)

Section Writers.

Lemma vendor_webhook_fst (jobs : gmap string job_doc) vendor w now :
  fst (vendor_webhook jobs vendor w now)
  = fst (update_job_status jobs (wh_job_id w) COMPLETE (VDict (wh_data w))
           None now).
Proof.
  unfold vendor_webhook.
  destruct (update_job_status jobs (wh_job_id w) COMPLETE
              (VDict (wh_data w)) None now) as [jobs' [|]]; reflexivity.
Qed.

(** Reads job [j] after one or two status updates, given its document
    before them in [H]. *)
Ltac read_job j H :=
  rewrite !update_job_status_lookup;
  change (bson_encodable VNone) with true; cbv iota;
  try match goal with
  | |- context [if bson_encodable ?v then _ else _] =>
      destruct (bson_encodable v)
  end;
  try match goal with
  | |- context [decide (j = ?i)] => destruct (decide (j = i))
  end;
  rewrite H; cbn; eexists; (split; [reflexivity|]); cbn.

(** [process_job] keeps every job in the store and gives none the status
    [PENDING]. *)
Lemma process_job_lookup env vc (jobs : gmap string job_doc) r j d :
  jobs !! j = Some d ->
  exists d',
    jobs_after (process_job env vc jobs r) !! j = Some d'
    /\ (status d' = PENDING -> status d = PENDING).
Proof.
  intros H. unfold process_job. cbv zeta.
  destruct (str_hash env (job_id r) mod 2 =? 0)%Z.
  - change (String.eqb "sync" "sync") with true. cbv iota.
    destruct (call_sync_vendor env vc r) as [[vc' request] result].
    cbn [jobs_after].
    destruct (truthy result); [destruct result|];
      read_job j H; first [discriminate | tauto].
  - change (String.eqb "async" "sync") with false. cbv iota.
    destruct (call_async_vendor env vc r) as [[vc' request] [|]];
      cbn [jobs_after]; read_job j H; first [discriminate | tauto].
Qed.

Lemma webhook_lookup (jobs : gmap string job_doc) vendor w now j d :
  jobs !! j = Some d ->
  exists d',
    fst (vendor_webhook jobs vendor w now) !! j = Some d'
    /\ (status d' = PENDING -> status d = PENDING)
    /\ (is_terminal (status d) = true -> is_terminal (status d') = true)
    /\ (status d = COMPLETE -> status d' = COMPLETE).
Proof.
  intros H. rewrite vendor_webhook_fst.
  read_job j H; repeat split; auto; discriminate.
Qed.

End Writers.

(** C2 (as the code has it).  No sequence of Dispatcher and Webhook
    Completion Handler operations removes a job from the store or returns
    it to [PENDING]; and under Webhook Completion Handler operations a job
    in a terminal state stays in a terminal state and a [COMPLETE] job stays
    [COMPLETE]. *)
Theorem terminal_kept_by_webhook_never_back_to_pending
    (ops : list operation) (jobs : gmap string job_doc) (id : string)
    (d : job_doc) :
  jobs !! id = Some d ->
  exists d',
    run jobs ops !! id = Some d'
    /\ (status d' = PENDING -> status d = PENDING)
    /\ (forallb is_webhook ops = true ->
        is_terminal (status d) = true -> is_terminal (status d') = true)
    /\ (forallb is_webhook ops = true ->
        status d = COMPLETE -> status d' = COMPLETE).
Proof.
  revert jobs d. induction ops as [|op ops IH]; intros jobs d H.
  - exists d. simpl. auto.
  - assert (Hstep : exists d1,
               step jobs op !! id = Some d1
               /\ (status d1 = PENDING -> status d = PENDING)
               /\ (is_webhook op = true ->
                   (is_terminal (status d) = true -> is_terminal (status d1) = true)
                   /\ (status d = COMPLETE -> status d1 = COMPLETE))).
    { destruct op as [env vc r | vendor w now]; simpl.
      - destruct (process_job_lookup env vc jobs r id d H) as (d1 & L & P).
        exists d1. repeat split; auto; discriminate.
      - destruct (webhook_lookup jobs vendor w now id d H) as (d1 & L & P & T & C).
        exists d1. auto. }
    destruct Hstep as (d1 & L1 & P1 & W1).
    destruct (IH (step jobs op) d1 L1) as (d' & L & P & T & C).
    exists d'. split; [exact L|]. split; [auto|].
    split; intros Hall; simpl in Hall; apply andb_true_iff in Hall as [Hw Hall];
      destruct (W1 Hw) as [T1 C1]; auto.
Qed.

Lemma terminal_kept_by_webhook_never_back_to_pending_witness :
  exists d',
    run complete_store
      [Webhook "async" callback 400; Webhook "async" callback 500] !! "job-1"
    = Some d'
    /\ status d' = COMPLETE.
Proof.
  destruct (terminal_kept_by_webhook_never_back_to_pending
              [Webhook "async" callback 400; Webhook "async" callback 500]
              complete_store "job-1"
              (job_in COMPLETE (VDict [("r", VInt 1)]) None))
    as (d' & L & _ & _ & C); [reflexivity|].
  exists d'. split; [exact L | apply C; reflexivity].
Defined.

(** C2, counterexample.  A webhook callback for a [FAILED] job makes it
    [COMPLETE], and dispatching a [COMPLETE] job again (request routed to
    the asynchronous vendor, which accepts it) leaves it [PROCESSING]. *)
Lemma terminal_status_changes_again :
  status <$> failed_store !! "job-1" = Some FAILED
  /\ status <$> step failed_store (Webhook "async" callback 400) !! "job-1"
     = Some COMPLETE
  /\ status <$> complete_store !! "job-1" = Some COMPLETE
  /\ status <$> step complete_store
                  (Dispatch (env_with 1 (Response 200 None)) client request)
                !! "job-1"
     = Some PROCESSING.
Proof. vm_compute. repeat split. Qed.

(** ** Claims about the queue *)

Section QueueFacts.

Lemma xreadgroup_some q q1 m e :
  xreadgroup q = (q1, Some (m, e)) ->
  m = last_delivered q
  /\ entries q !! last_delivered q = Some e
  /\ q1 = {| entries := entries q;
             last_delivered := S (last_delivered q);
             pending := {[ last_delivered q ]} ∪ pending q |}.
Proof.
  unfold xreadgroup. destruct (entries q !! last_delivered q) as [e'|].
  - intros [= <- <- <-]. auto.
  - discriminate.
Qed.

Lemma dequeue_job_some q q' r :
  dequeue_job q = (q', Some r) ->
  exists e pl,
    entries q !! last_delivered q = Some e
    /\ e_payload e = VDict pl
    /\ r = {| job_id := e_request_id e; vr_payload := pl |}
    /\ q' = {| entries := entries q;
               last_delivered := S (last_delivered q);
               pending := ({[ last_delivered q ]} ∪ pending q)
                          ∖ {[ last_delivered q ]} |}.
Proof.
  unfold dequeue_job.
  destruct (xreadgroup q) as [q1 [[m e]|]] eqn:E; [|discriminate].
  apply xreadgroup_some in E as (-> & He & ->).
  destruct (e_payload e) eqn:P; try discriminate.
  intros [= <- <-]. exists e, d. auto.
Qed.

Lemma dequeue_job_last_delivered q :
  (last_delivered q <= last_delivered (fst (dequeue_job q)))%nat.
Proof.
  unfold dequeue_job, xreadgroup.
  destruct (entries q !! last_delivered q) as [e|]; [|reflexivity].
  destruct (e_payload e); simpl; lia.
Qed.

Lemma queue_run_last_delivered ops q :
  (last_delivered q <= last_delivered (queue_run q ops))%nat.
Proof.
  revert q. induction ops as [|op ops IH]; intros q; simpl; [reflexivity|].
  etransitivity; [|apply IH].
  destruct op; simpl; [reflexivity | apply dequeue_job_last_delivered].
Qed.

(** [process_job] does not touch the queue: after an iteration of the
    worker loop the queue is as [dequeue_job] left it. *)
Lemma run_iteration_queue env w :
  w_queue (run_iteration env w) = fst (dequeue_job (w_queue w)).
Proof.
  unfold run_iteration, run_dequeue.
  destruct (dequeue_job (w_queue w)) as [q [r|]]; reflexivity.
Qed.

End QueueFacts.

(** C3 (as the code has it).  Delivery is at-most-once: [dequeue_job]
    acknowledges the entry itself, before it returns the request to the
    consumer.  Whenever [dequeue_job] returns a request, the entry it read
    is already out of the pending set of the resulting queue state (the
    pending set is the former one without it), and no later read of the
    group, after any enqueues and dequeues, delivers that entry again. *)
Theorem dequeue_job_acknowledges_before_returning
    (q q' : stream) (r : VendorRequest) :
  dequeue_job q = (q', Some r) ->
  (last_delivered q ∉ pending q')
  /\ pending q' = pending q ∖ {[ last_delivered q ]}
  /\ (forall ops q'' m e,
         xreadgroup (queue_run q' ops) = (q'', Some (m, e)) ->
         m <> last_delivered q).
Proof.
  intros H. apply dequeue_job_some in H as (e & pl & He & Hp & -> & ->).
  cbn [pending]. split; [|split].
  - intros [_ Hn]%elem_of_difference. apply Hn. now apply elem_of_singleton.
  - apply set_eq. intros x.
    rewrite !elem_of_difference, elem_of_union, elem_of_singleton. tauto.
  - intros ops q'' m e' Hread.
    apply xreadgroup_some in Hread as (-> & _ & _).
    pose proof (queue_run_last_delivered ops
                  {| entries := entries q;
                     last_delivered := S (last_delivered q);
                     pending := ({[ last_delivered q ]} ∪ pending q)
                                ∖ {[ last_delivered q ]} |}) as Hle.
    cbn [last_delivered] in Hle. lia.
Qed.

Lemma dequeue_job_acknowledges_before_returning_witness :
  (0%nat ∉ pending (fst (dequeue_job (one_entry_queue "sync"))))
  /\ pending (fst (dequeue_job (one_entry_queue "sync")))
     = pending (one_entry_queue "sync") ∖ {[ 0%nat ]}
  /\ (forall ops q'' m e,
         xreadgroup (queue_run (fst (dequeue_job (one_entry_queue "sync"))) ops)
         = (q'', Some (m, e)) ->
         m <> 0%nat).
Proof.
  apply (dequeue_job_acknowledges_before_returning
           (one_entry_queue "sync") (fst (dequeue_job (one_entry_queue "sync")))
           request).
  reflexivity.
Defined.

(** C3, counterexample.  A worker dequeues the only entry of the queue and
    stops before [process_job]: the request was returned, yet the pending
    set is already empty and a further [dequeue_job] finds nothing, so the
    entry is not eligible for redelivery. *)
Lemma dequeued_entry_not_pending_before_processing :
  let w1 := fst (run_dequeue (worker_with (one_entry_queue "sync"))) in
  snd (run_dequeue (worker_with (one_entry_queue "sync"))) = Some request
  /\ w_jobs w1 = pending_store
  /\ pending (w_queue w1) = ∅
  /\ snd (dequeue_job (w_queue w1)) = None.
Proof. vm_compute. repeat split. Qed.

(** C5 (as the code has it).  The selector an enqueuer puts in the queue
    entry does not reach the dispatcher: [dequeue_job] returns only the
    request id and the payload, whatever [vendor_type] was enqueued, and
    [process_job] routes on the parity of the hash of the job id, to the
    synchronous vendor when it is even and to the asynchronous one
    otherwise. *)
Theorem routing_ignores_enqueued_selector
    (env : environment) (vc : VendorClient) (jobs : gmap string job_doc)
    (q : stream) (request_id : string) (pl : dict) (vendor_type ts : string) :
  drained q ->
  let r := {| job_id := request_id; vr_payload := pl |} in
  let o := process_job env vc jobs r in
  snd (dequeue_job (fst (enqueue_job q request_id pl vendor_type ts))) = Some r
  /\ routed o
     = (if (str_hash env request_id mod 2 =? 0)%Z then "sync" else "async")
  /\ url (sent o)
     = (if (str_hash env request_id mod 2 =? 0)%Z
        then sync_url vc ++ "/process" else async_url vc ++ "/process").
Proof.
  intros Hq r o. split.
  - unfold dequeue_job, xreadgroup, enqueue_job, xadd. cbn [fst entries last_delivered].
    rewrite Hq. rewrite lookup_app_r by reflexivity.
    rewrite Nat.sub_diag. reflexivity.
  - subst o r. unfold process_job. cbv zeta. cbn [job_id].
    destruct (str_hash env request_id mod 2 =? 0)%Z.
    + change (String.eqb "sync" "sync") with true. cbv iota.
      split; reflexivity.
    + change (String.eqb "async" "sync") with false. cbv iota.
      split; reflexivity.
Qed.

Lemma routing_ignores_enqueued_selector_witness :
  snd (dequeue_job (one_entry_queue "async")) = Some request
  /\ routed (process_job (env_with 0 TransportError) client pending_store request)
     = "sync"
  /\ url (sent (process_job (env_with 0 TransportError) client pending_store
                  request))
     = "http://localhost:8001/process".
Proof.
  apply (routing_ignores_enqueued_selector (env_with 0 TransportError) client
           pending_store empty_stream "job-1" [("x", VInt 1)] "async"
           "1700000000.0").
  reflexivity.
Defined.

(** C5, counterexample.  An entry enqueued with [vendor_type = "async"] for a
    job id with an even hash is dispatched to the synchronous vendor. *)
Lemma async_entry_dispatched_to_sync_vendor :
  e_vendor_type <$> entries (one_entry_queue "async") !! 0%nat = Some "async"
  /\ snd (dequeue_job (one_entry_queue "async")) = Some request
  /\ routed (process_job (env_with 0 (success_with (VDict []))) client
               pending_store request) = "sync"
  /\ url (sent (process_job (env_with 0 (success_with (VDict []))) client
                  pending_store request))
     = "http://localhost:8001/process".
Proof. vm_compute. repeat split. Qed.

(** ** End-to-end scenarios *)

Section Scenarios.


(** Synchronous vendor answering [{"success": true, "data": {"email":
    " a@b.com "}}]: the job is complete and the address is redacted. *)
Example scenario_sync_redacts_email :
  let jobs' :=
    jobs_after (process_job
                  (env_with 0 (success_with (VDict [("email", VStr " a@b.com ")])))
                  client pending_store request) in
  status <$> jobs' !! "job-1" = Some COMPLETE
  /\ result <$> jobs' !! "job-1" = Some (VDict [("email", VStr "[REDACTED]")]).
Proof. vm_compute. split; reflexivity. Qed.

(** Asynchronous vendor accepting the job, then the callback
    [{"job_id": id, "data": {"r": 1}}]. *)
Example scenario_async_then_webhook :
  let jobs1 :=
    jobs_after (process_job (env_with 1 (Response 200 None)) client
                  pending_store request) in
  let jobs2 := fst (vendor_webhook jobs1 "async" callback 400) in
  status <$> jobs1 !! "job-1" = Some PROCESSING
  /\ status <$> jobs2 !! "job-1" = Some COMPLETE
  /\ result <$> jobs2 !! "job-1" = Some (VDict [("r", VInt 1)]).
Proof. vm_compute. repeat split. Qed.

(** Synchronous vendor answering 500. *)
Example scenario_sync_http_500 :
  let jobs' :=
    jobs_after (process_job (env_with 0 (Response 500 None)) client
                  pending_store request) in
  status <$> jobs' !! "job-1" = Some FAILED
  /\ error <$> jobs' !! "job-1" = Some (Some "Sync vendor call failed").
Proof. vm_compute. split; reflexivity. Qed.

(** A 200 answer whose body is a JSON array: [result.get] raises and the
    job fails with the text of the exception. *)
Example scenario_sync_body_not_an_object :
  error <$> jobs_after (process_job
                          (env_with 0 (Response 200 (Some (VList [VInt 1]))))
                          client pending_store request) !! "job-1"
  = Some (Some "'list' object has no attribute 'get'").
Proof. vm_compute. reflexivity. Qed.

(** The sanitizer on the vendor mock's sample data. *)
Example clean_vendor_data_user_info :
  clean_vendor_data
    (VDict [("result",
             VDict [("user_info",
                     VDict [("email", VStr "  user@example.com  ");
                            ("phone", VStr "555-123-4567");
                            ("name", VStr "  John Doe  ")])])])
  = VDict [("result",
            VDict [("user_info",
                    VDict [("email", VStr "[REDACTED]");
                           ("phone", VStr "[REDACTED]");
                           ("name", VStr "John Doe")])])].
Proof. reflexivity. Qed.

End Scenarios.

(** * Further properties *)

Import StatusApi More.

(** ** The queue *)

Section QueueOrder.

Lemma undelivered_cons q e es :
  undelivered q = e :: es ->
  entries q !! last_delivered q = Some e
  /\ drop (S (last_delivered q)) (entries q) = es.
Proof.
  unfold undelivered. intros H. split.
  - rewrite <- (Nat.add_0_r (last_delivered q)), <- lookup_drop, H. reflexivity.
  - replace (S (last_delivered q)) with (last_delivered q + 1)%nat by lia.
    rewrite <- drop_drop, H. reflexivity.
Qed.

Lemma drained_undelivered q : drained q -> undelivered q = [].
Proof. unfold drained, undelivered. intros ->. apply drop_all. Qed.

Lemma undelivered_nil_dequeue q : undelivered q = [] -> dequeue_job q = (q, None).
Proof.
  unfold undelivered. intros H.
  assert (L : entries q !! last_delivered q = None).
  { apply lookup_ge_None. apply drop_nil_inv in H. lia. }
  unfold dequeue_job, xreadgroup. now rewrite L.
Qed.

Lemma dequeue_job_next q e es r :
  undelivered q = e :: es ->
  request_of e = Some r ->
  exists q',
    dequeue_job q = (q', Some r)
    /\ entries q' = entries q
    /\ last_delivered q' = S (last_delivered q)
    /\ undelivered q' = es
    /\ pending q' = pending q ∖ {[ last_delivered q ]}.
Proof.
  intros Hu Hr. apply undelivered_cons in Hu as [He Hes].
  unfold request_of in Hr. unfold dequeue_job, xreadgroup. rewrite He.
  destruct (e_payload e); try discriminate. injection Hr as <-.
  eexists. split; [reflexivity|]. cbn. repeat split; [exact Hes|].
  apply set_eq. intros x.
  rewrite !elem_of_difference, elem_of_union, elem_of_singleton. tauto.
Qed.

Lemma enqueue_job_undelivered q request_id pl vt ts :
  (last_delivered q <= length (entries q))%nat ->
  undelivered (fst (enqueue_job q request_id pl vt ts))
  = (undelivered q
     ++ [{| e_request_id := request_id; e_payload := VDict pl;
            e_vendor_type := vt; e_timestamp := ts |}])%list.
Proof.
  intros H. unfold undelivered, enqueue_job, xadd. cbn.
  now rewrite drop_app_le.
Qed.

Lemma enqueue_all_undelivered items : forall q,
  (last_delivered q <= length (entries q))%nat ->
  undelivered (enqueue_all q items)
  = (undelivered q
     ++ map (fun item =>
               {| e_request_id := fst (fst (fst item));
                  e_payload := VDict (snd (fst (fst item)));
                  e_vendor_type := snd (fst item);
                  e_timestamp := snd item |}) items)%list
  /\ (last_delivered (enqueue_all q items)
      <= length (entries (enqueue_all q items)))%nat
  /\ pending (enqueue_all q items) = pending q.
Proof.
  induction items as [|[[[rid pl] vt] ts] items IH]; intros q Hq.
  - cbn. rewrite app_nil_r. auto.
  - change (enqueue_all q ((rid, pl, vt, ts) :: items))
      with (enqueue_all (fst (enqueue_job q rid pl vt ts)) items).
    destruct (IH (fst (enqueue_job q rid pl vt ts))) as (U & L & P).
    { cbn. rewrite length_app. cbn. lia. }
    rewrite U, enqueue_job_undelivered by exact Hq.
    rewrite <- app_assoc. auto.
Qed.

Lemma dequeue_many_requests es rs :
  Forall2 (fun e r => request_of e = Some r) es rs ->
  forall q,
    undelivered q = es ->
    exists q',
      dequeue_many (length rs) q = (q', map Some rs)
      /\ undelivered q' = []
      /\ entries q' = entries q
      /\ pending q' ⊆ pending q.
Proof.
  induction 1 as [|e r es rs He HF IH]; intros q Hu.
  - exists q. cbn. auto.
  - destruct (dequeue_job_next q e es r Hu He)
      as (q1 & D & E1 & L1 & U1 & P1).
    destruct (IH q1 U1) as (q' & D' & U' & E' & P').
    exists q'. cbn. rewrite D, D'. repeat split; auto.
    + congruence.
    + intros x Hx. apply P' in Hx. rewrite P1 in Hx.
      apply elem_of_difference in Hx. tauto.
Qed.

End QueueOrder.

Section QueueInvariant.

Lemma enqueue_all_length items : forall q,
  get_queue_length (enqueue_all q items)
  = (get_queue_length q + length items)%nat.
Proof.
  induction items as [|[[[rid pl] vt] ts] items IH]; intros q.
  - cbn. lia.
  - change (enqueue_all q ((rid, pl, vt, ts) :: items))
      with (enqueue_all (fst (enqueue_job q rid pl vt ts)) items).
    rewrite IH. unfold get_queue_length, enqueue_job, xadd. cbn.
    rewrite length_app. cbn. lia.
Qed.

Lemma queue_step_inv q op :
  queue_inv q ->
  queue_inv (queue_step q op)
  /\ get_queue_length (queue_step q op)
     = (get_queue_length q + if is_enqueue op then 1 else 0)%nat.
Proof.
  intros (P & L & F). destruct op as [rid pl vt ts|]; cbn.
  - unfold queue_inv, get_queue_length, xadd. cbn. rewrite length_app. cbn.
    split; [split; [exact P | split; [lia|]] | lia].
    apply Forall_app. split; [exact F|]. now constructor.
  - unfold dequeue_job, xreadgroup.
    destruct (entries q !! last_delivered q) as [e|] eqn:E.
    + assert (He : is_dict (e_payload e) = true).
      { rewrite Forall_forall in F. apply F.
        apply list_elem_of_lookup. eauto. }
      apply lookup_lt_Some in E.
      destruct (e_payload e); try discriminate.
      unfold queue_inv, get_queue_length. cbn.
      split; [split; [| split; [lia | exact F]] | lia].
      rewrite P. apply set_eq. intros x.
      rewrite elem_of_difference, elem_of_union, elem_of_singleton.
      rewrite elem_of_empty. tauto.
    + cbn. unfold queue_inv, get_queue_length.
      split; [split; [exact P | split; [exact L | exact F]] | lia].
Qed.

End QueueInvariant.

(** X1.  Jobs enqueued on a queue with nothing undelivered come back from
    [dequeue_job] in the order they were enqueued, each with its request id
    and payload; one more [dequeue_job] returns [None] and changes nothing,
    and the queue length still counts every entry. *)
Theorem enqueue_then_dequeue_in_order
    (q : stream) (items : list (string * dict * string * string)) :
  drained q ->
  exists q',
    dequeue_many (length items) (enqueue_all q items)
    = (q', map (fun item =>
                  Some {| job_id := fst (fst (fst item));
                          vr_payload := snd (fst (fst item)) |}) items)
    /\ dequeue_job q' = (q', None)
    /\ get_queue_length q' = (get_queue_length q + length items)%nat.
Proof.
  intros Hq.
  destruct (enqueue_all_undelivered items q) as (U & _ & _).
  { rewrite Hq. reflexivity. }
  rewrite (drained_undelivered q Hq) in U. cbn in U.
  pose (rs := map (fun item : string * dict * string * string =>
                     {| job_id := fst (fst (fst item));
                        vr_payload := snd (fst (fst item)) |}) items).
  assert (HF : Forall2 (fun e r => request_of e = Some r)
                  (undelivered (enqueue_all q items)) rs).
  { rewrite U. subst rs. clear. induction items as [|item items IH]; cbn;
      constructor; auto. }
  destruct (dequeue_many_requests _ rs HF (enqueue_all q items) eq_refl)
    as (q' & D & U' & E' & _).
  exists q'. subst rs. rewrite length_map, map_map in D.
  split; [exact D|]. split; [now apply undelivered_nil_dequeue|].
  unfold get_queue_length at 1. rewrite E'. apply enqueue_all_length.
Qed.

Lemma enqueue_then_dequeue_in_order_witness :
  exists q',
    dequeue_many 2
      (enqueue_all empty_stream
         [("job-1", [("x", VInt 1)], "sync", "1.0");
          ("job-2", [], "async", "2.0")])
    = (q', [Some {| job_id := "job-1"; vr_payload := [("x", VInt 1)] |};
            Some {| job_id := "job-2"; vr_payload := [] |}])
    /\ dequeue_job q' = (q', None)
    /\ get_queue_length q' = 2%nat.
Proof.
  apply (enqueue_then_dequeue_in_order empty_stream
           [("job-1", [("x", VInt 1)], "sync", "1.0");
            ("job-2", [], "async", "2.0")]).
  reflexivity.
Defined.

(** X2.  In a queue that started empty and has seen only [enqueue_job] and
    [dequeue_job], nothing is pending after any operation, the group's
    cursor is within the log, and [get_queue_length] is the number of jobs
    ever enqueued: dequeuing never makes the queue shorter. *)
Theorem queue_length_counts_enqueues (ops : list queue_op) :
  let q := queue_run empty_stream ops in
  pending q = ∅
  /\ (last_delivered q <= get_queue_length q)%nat
  /\ get_queue_length q = length (filter (fun op => is_enqueue op = true) ops).
Proof.
  cbv zeta.
  assert (G : forall q, queue_inv q ->
              queue_inv (queue_run q ops)
              /\ get_queue_length (queue_run q ops)
                 = (get_queue_length q
                    + length (filter (fun op => is_enqueue op = true) ops))%nat).
  { induction ops as [|op ops IH]; intros q Hq.
    - cbn. split; [exact Hq | lia].
    - destruct (queue_step_inv q op Hq) as [Hq1 L1].
      destruct (IH _ Hq1) as [Hq2 L2].
      split; [exact Hq2|].
      change (queue_run q (op :: ops)) with (queue_run (queue_step q op) ops).
      rewrite L2, L1. rewrite filter_cons.
      destruct (is_enqueue op); cbn.
      + rewrite decide_True by reflexivity. cbn. lia.
      + rewrite decide_False by discriminate. lia. }
  destruct (G empty_stream) as [(P & L & _) Len].
  { split; [reflexivity | split; [cbn; lia | constructor]]. }
  split; [exact P|]. split; [exact L|].
  rewrite Len. reflexivity.
Qed.

(** X3.  An entry whose payload is [None], a boolean or a number cannot be
    made into a request: [dequeue_job] returns [None], yet the entry has been
    read, so it is never delivered again, and it is never acknowledged: it
    stays in the pending set through every later enqueue and dequeue. *)
Theorem unparsable_entry_stays_pending
    (q : stream) (e : queue_entry) (ops : list queue_op) :
  entries q !! last_delivered q = Some e ->
  is_scalar (e_payload e) = true ->
  snd (dequeue_job q) = None
  /\ last_delivered (fst (dequeue_job q)) = S (last_delivered q)
  /\ last_delivered q ∈ pending (queue_run (fst (dequeue_job q)) ops)
  /\ (forall q' m e',
         xreadgroup (queue_run (fst (dequeue_job q)) ops) = (q', Some (m, e')) ->
         m <> last_delivered q).
Proof.
  intros He Hs. unfold dequeue_job at 1 2 3 4, xreadgroup. rewrite He.
  set (n := last_delivered q).
  set (q1 := {| entries := entries q; last_delivered := S n;
                pending := {[ n ]} ∪ pending q |}).
  assert (D : (let '(message_id, data) := (n, e) in
               match e_payload data with
               | VDict pl =>
                   (xack q1 message_id,
                    Some {| job_id := e_request_id data; vr_payload := pl |})
               | _ => (q1, None)
               end) = (q1, None)).
  { cbn. destruct (e_payload e); (reflexivity || discriminate). }
  rewrite D. cbn [fst snd].
  assert (G : forall ops q2,
             (n < last_delivered q2)%nat -> n ∈ pending q2 ->
             (n < last_delivered (queue_run q2 ops))%nat
             /\ n ∈ pending (queue_run q2 ops)).
  { clear. induction ops as [|op ops IH]; intros q2 L P; [now split|].
    change (queue_run q2 (op :: ops)) with (queue_run (queue_step q2 op) ops).
    apply IH.
    - pose proof (queue_run_last_delivered [op] q2) as H. cbn in H. lia.
    - destruct op as [rid pl vt ts|]; cbn; [exact P|].
      unfold dequeue_job, xreadgroup.
      destruct (entries q2 !! last_delivered q2) as [e2|]; [|exact P].
      destruct (e_payload e2); cbn; try (apply elem_of_union; now right).
      apply elem_of_difference. split.
      + apply elem_of_union. now right.
      + rewrite elem_of_singleton. lia. }
  destruct (G ops q1) as [L P].
  { cbn. lia. }
  { cbn. apply elem_of_union. left. now apply elem_of_singleton. }
  repeat split; [exact P|].
  intros q' m e' Hread. apply xreadgroup_some in Hread as (-> & _ & _). lia.
Qed.

Lemma unparsable_entry_stays_pending_witness :
  let q := xadd empty_stream
             {| e_request_id := "job-9"; e_payload := VInt 7;
                e_vendor_type := "sync"; e_timestamp := "1.0" |} in
  snd (dequeue_job q) = None
  /\ last_delivered (fst (dequeue_job q)) = 1%nat
  /\ 0%nat ∈ pending (queue_run (fst (dequeue_job q)) [Dequeue; Dequeue])
  /\ (forall q' m e',
         xreadgroup (queue_run (fst (dequeue_job q)) [Dequeue; Dequeue])
         = (q', Some (m, e')) ->
         m <> 0%nat).
Proof.
  apply (unparsable_entry_stays_pending
           (xadd empty_stream
              {| e_request_id := "job-9"; e_payload := VInt 7;
                 e_vendor_type := "sync"; e_timestamp := "1.0" |})
           {| e_request_id := "job-9"; e_payload := VInt 7;
              e_vendor_type := "sync"; e_timestamp := "1.0" |}
           [Dequeue; Dequeue]).
  - reflexivity.
  - reflexivity.
Defined.

(** ** The job store and the API *)

Section StoreFacts.

Lemma update_job_status_dom (jobs : gmap string job_doc) id st res err now :
  dom (fst (update_job_status jobs id st res err now)) = dom jobs.
Proof.
  apply set_eq. intros j. rewrite !elem_of_dom, update_job_status_lookup.
  destruct (bson_encodable res); [|reflexivity].
  destruct (decide (j = id)); [|reflexivity].
  now rewrite fmap_is_Some.
Qed.

(** Two documents of the same job: same payload and creation time. *)
Lemma apply_set_same_job u d :
  payload (apply_set u d) = payload d
  /\ created_at (apply_set u d) = created_at d.
Proof. split; reflexivity. Qed.

(** The store after [process_job]: one or two status updates of the job. *)
Lemma process_job_updates env vc (jobs : gmap string job_doc) r :
  exists st1 res1 err1 now1,
    let jobs1 := fst (update_job_status jobs (job_id r) PROCESSING VNone None
                        (utcnow_1 env)) in
    jobs_after (process_job env vc jobs r) = jobs1
    \/ jobs_after (process_job env vc jobs r)
       = fst (update_job_status jobs1 (job_id r) st1 res1 err1 now1).
Proof.
  unfold process_job. cbv zeta.
  destruct (str_hash env (job_id r) mod 2 =? 0)%Z.
  - change (String.eqb "sync" "sync") with true. cbv iota.
    destruct (call_sync_vendor env vc r) as [[vc' request] result].
    cbn [jobs_after].
    destruct (truthy result); [destruct result|]; do 4 eexists; right;
      reflexivity.
  - change (String.eqb "async" "sync") with false. cbv iota.
    destruct (call_async_vendor env vc r) as [[vc' request] [|]];
      cbn [jobs_after].
    + exists PENDING, VNone, None, 0%Z. now left.
    + do 4 eexists. right. reflexivity.
Qed.

Lemma step_updates (jobs : gmap string job_doc) op :
  exists id st0 res0 err0 now0 st1 res1 err1 now1,
    let jobs1 := fst (update_job_status jobs id st0 res0 err0 now0) in
    step jobs op = jobs1
    \/ step jobs op = fst (update_job_status jobs1 id st1 res1 err1 now1).
Proof.
  destruct op as [env vc r | vendor w now]; cbn [step].
  - destruct (process_job_updates env vc jobs r) as (st1 & res1 & err1 & now1 & H).
    exists (job_id r), PROCESSING, VNone, None, (utcnow_1 env),
      st1, res1, err1, now1. exact H.
  - rewrite vendor_webhook_fst.
    exists (wh_job_id w), COMPLETE, (VDict (wh_data w)), None, now,
      PENDING, VNone, None, 0%Z. now left.
Qed.

Lemma update_job_status_new_time (jobs : gmap string job_doc) id st res err
    now d :
  jobs !! id = Some d -> updated_at d <> now ->
  bson_encodable res = true ->
  snd (update_job_status jobs id st res err now) = true.
Proof.
  intros Hd Hnow Henc. apply update_job_status_snd. split; [exact Henc|].
  exists d. split; [exact Hd|].
  intros Heq. apply Hnow. apply (f_equal updated_at) in Heq. now symmetry.
Qed.

End StoreFacts.

(** X4.  A job created with a request id that is not yet in the store and a
    payload that the driver of the store encodes is read back by [get_job]
    as pending, without result or error, created and updated at the time of
    creation; reading any other id gives what it gave before.  With a
    payload that the driver does not encode nothing is created. *)
Theorem create_job_then_get_job
    (jobs : gmap string job_doc) (id : string) (pl : dict) (now : Z)
    (j : string) :
  jobs !! id = None ->
  let jobs' := fst (Database.create_job jobs id pl now) in
  (bson_encodable (VDict pl) = true ->
   get_job jobs' id
   = Some {| r_status := PENDING; r_result := None; r_error := None;
             r_created_at := now; r_updated_at := now |}
   /\ (j <> id -> get_job jobs' j = get_job jobs j))
  /\ (bson_encodable (VDict pl) = false ->
      Database.create_job jobs id pl now = (jobs, false)).
Proof.
  intros H. cbv zeta. split.
  - intros Hpl. rewrite (create_job_fresh jobs id pl now H Hpl). cbn [fst].
    split.
    + unfold get_job. now rewrite lookup_insert_eq.
    + intros Hne. unfold get_job. now rewrite lookup_insert_ne.
  - apply create_job_unencodable.
Qed.

Lemma create_job_then_get_job_witness :
  get_job (fst (Database.create_job pending_store "job-2" [("y", VInt 2)] 500))
    "job-2"
  = Some {| r_status := PENDING; r_result := None; r_error := None;
            r_created_at := 500; r_updated_at := 500 |}
  /\ get_job (fst (Database.create_job pending_store "job-2" [("y", VInt 2)] 500))
       "job-1"
     = get_job pending_store "job-1".
Proof.
  destruct (create_job_then_get_job pending_store "job-2" [("y", VInt 2)] 500
              "job-1") as [E _]; [reflexivity|].
  destruct E as [A B]; [reflexivity|].
  split; [exact A | apply B; discriminate].
Defined.

(** X5.  [update_job_status] never adds or removes a job, and it returns
    [True] exactly when it changed the store: it returns [False] for an id
    that is not in the store, for a job whose document the update leaves as
    it is, and for a result that the driver of the store does not encode
    (nothing is written then); for a job in the store and a result that the
    driver encodes it returns [True] whenever the time of the update differs
    from the stored [updated_at]. *)
Theorem update_job_status_true_iff_store_changed
    (jobs : gmap string job_doc) (id : string) (st : JobStatus) (res : value)
    (err : option string) (now : Z) :
  dom (fst (update_job_status jobs id st res err now)) = dom jobs
  /\ (snd (update_job_status jobs id st res err now) = true
      <-> fst (update_job_status jobs id st res err now) <> jobs)
  /\ (forall d,
         jobs !! id = Some d -> updated_at d <> now ->
         bson_encodable res = true ->
         snd (update_job_status jobs id st res err now) = true)
  /\ (bson_encodable res = false ->
      update_job_status jobs id st res err now = (jobs, false)).
Proof.
  split; [apply update_job_status_dom|].
  assert (Hiff : snd (update_job_status jobs id st res err now) = true
                 <-> fst (update_job_status jobs id st res err now) <> jobs).
  { rewrite update_job_status_snd, update_job_status_fst.
    destruct (bson_encodable res);
      [|split; [intros [[=] _] | intros Hne; now contradiction Hne]].
    destruct (jobs !! id) as [d|] eqn:E.
    - split.
      + intros (_ & d' & [= <-] & Hne) Heq. apply Hne.
        assert (L : <[id := apply_set (update_of st res err now) d]> jobs !! id
                    = jobs !! id) by now rewrite Heq.
        rewrite lookup_insert_eq, E in L. now injection L.
      + intros Hne. split; [reflexivity|]. exists d. split; [reflexivity|].
        intros Heq. apply Hne. rewrite Heq. now apply insert_id.
    - split; [intros (_ & d & [=] & _) | intros Hne; now contradiction Hne]. }
  split; [exact Hiff|]. split.
  - intros d Hd Hnow Henc. now apply update_job_status_new_time with d.
  - apply update_job_status_unencodable.
Qed.

Lemma update_job_status_true_iff_store_changed_witness :
  snd (update_job_status pending_store "job-1" COMPLETE
         (VDict [("r", VInt 1)]) None 200) = true
  /\ update_job_status pending_store "job-1" COMPLETE
       (VDict [("n", VInt (2 ^ 63))]) None 200
     = (pending_store, false).
Proof.
  split.
  - apply (proj1 (proj2 (proj2 (update_job_status_true_iff_store_changed
                                  pending_store "job-1" COMPLETE
                                  (VDict [("r", VInt 1)]) None 200)))
             (job_in PENDING VNone None)).
    + reflexivity.
    + discriminate.
    + reflexivity.
  - apply (proj2 (proj2 (proj2 (update_job_status_true_iff_store_changed
                                  pending_store "job-1" COMPLETE
                                  (VDict [("n", VInt (2 ^ 63))]) None 200)))).
    reflexivity.
Defined.

(** X6.  Whatever the dispatcher and the webhook handler do, in any order,
    the store holds the same job ids afterwards, and every job keeps the
    payload and the creation time it had: the writers create no job, delete
    none, and touch neither field. *)
Theorem writers_keep_ids_payload_and_creation_time
    (ops : list operation) (jobs : gmap string job_doc) :
  dom (run jobs ops) = dom jobs
  /\ (forall id d,
         jobs !! id = Some d ->
         exists d',
           run jobs ops !! id = Some d'
           /\ payload d' = payload d
           /\ created_at d' = created_at d).
Proof.
  revert jobs. induction ops as [|op ops IH]; intros jobs.
  - split; [reflexivity|]. intros id d H. exists d. auto.
  - change (run jobs (op :: ops)) with (run (step jobs op) ops).
    destruct (IH (step jobs op)) as [Hdom Hkeep].
    destruct (step_updates jobs op)
      as (i & st0 & res0 & err0 & now0 & st1 & res1 & err1 & now1 & Hstep).
    cbv zeta in Hstep. split.
    + rewrite Hdom. destruct Hstep as [-> | ->];
        rewrite ?update_job_status_dom; reflexivity.
    + intros id d H.
      assert (Hd1 : exists d1, step jobs op !! id = Some d1
                               /\ payload d1 = payload d
                               /\ created_at d1 = created_at d).
      { destruct Hstep as [-> | ->]; rewrite !update_job_status_lookup;
          destruct (bson_encodable res0); try destruct (bson_encodable res1);
          destruct (decide (id = i)); rewrite H; cbn; eexists;
          (split; [reflexivity | split; reflexivity]). }
      destruct Hd1 as (d1 & L1 & P1 & C1).
      destruct (Hkeep id d1 L1) as (d' & L & P & C).
      exists d'. split; [exact L|]. split; congruence.
Qed.

Lemma writers_keep_ids_payload_and_creation_time_witness :
  exists d',
    run failed_store
      [Webhook "async" callback 400;
       Dispatch (env_with 0 (Response 500 None)) client request] !! "job-1"
    = Some d'
    /\ payload d' = [("x", VInt 1)]
    /\ created_at d' = 100.
Proof.
  apply (proj2 (writers_keep_ids_payload_and_creation_time
                  [Webhook "async" callback 400;
                   Dispatch (env_with 0 (Response 500 None)) client request]
                  failed_store)
           "job-1" (job_in FAILED VNone (Some "Sync vendor call failed"))).
  reflexivity.
Defined.

(** X7.  The intake with a fresh request id and a payload that the driver of
    the store encodes, on a queue with nothing undelivered, answers OK; the
    status endpoint then reports the job as pending and the next
    [dequeue_job] returns this job's request.  With a request id that is
    already in the store, or a payload that the driver does not encode, the
    intake answers 500 and changes neither the store nor the queue: no entry
    is enqueued for a job that was not created. *)
Theorem intake_creates_then_enqueues
    (jobs : gmap string job_doc) (q : stream) (pl : dict)
    (request_id vendor_type : string) (now : Z) (ts : string) :
  (jobs !! request_id = None ->
   bson_encodable (VDict pl) = true ->
   drained q ->
   exists jobs' q',
     Api.create_job jobs q pl request_id vendor_type now ts = (jobs', q', OK)
     /\ get_job_status jobs' request_id
        = StatusOK {| r_status := PENDING; r_result := None; r_error := None;
                      r_created_at := now; r_updated_at := now |}
     /\ snd (dequeue_job q')
        = Some {| job_id := request_id; vr_payload := pl |})
  /\ (is_Some (jobs !! request_id) \/ bson_encodable (VDict pl) = false ->
      Api.create_job jobs q pl request_id vendor_type now ts
      = (jobs, q, HTTPException 500 "Internal server error")).
Proof.
  split.
  - intros Hfresh Hpl Hq. unfold Api.create_job.
    rewrite (create_job_fresh jobs request_id pl now Hfresh Hpl).
    cbn. do 2 eexists. split; [reflexivity|]. split.
    + unfold get_job_status, get_job. now rewrite lookup_insert_eq.
    + unfold dequeue_job, xreadgroup, xadd. cbn [entries last_delivered].
      rewrite Hq, lookup_app_r by reflexivity. now rewrite Nat.sub_diag.
  - intros [[d Hd] | Hpl]; unfold Api.create_job.
    + now rewrite (create_job_existing jobs request_id pl now d Hd).
    + now rewrite (create_job_unencodable jobs request_id pl now Hpl).
Qed.

Lemma intake_creates_then_enqueues_witness :
  (exists jobs' q',
      Api.create_job pending_store empty_stream [("y", VInt 2)] "job-2" "async"
        500 "1.0"
      = (jobs', q', OK)
      /\ get_job_status jobs' "job-2"
         = StatusOK {| r_status := PENDING; r_result := None; r_error := None;
                       r_created_at := 500; r_updated_at := 500 |}
      /\ snd (dequeue_job q')
         = Some {| job_id := "job-2"; vr_payload := [("y", VInt 2)] |})
  /\ Api.create_job pending_store empty_stream [("y", VInt 2)] "job-1" "async"
       500 "1.0"
     = (pending_store, empty_stream, HTTPException 500 "Internal server error")
  /\ Api.create_job pending_store empty_stream [("n", VInt (2 ^ 63))] "job-2"
       "async" 500 "1.0"
     = (pending_store, empty_stream, HTTPException 500 "Internal server error").
Proof.
  split; [|split].
  - apply (proj1 (intake_creates_then_enqueues pending_store empty_stream
                    [("y", VInt 2)] "job-2" "async" 500 "1.0"));
      reflexivity.
  - apply (proj2 (intake_creates_then_enqueues pending_store empty_stream
                    [("y", VInt 2)] "job-1" "async" 500 "1.0")).
    left. exists (job_in PENDING VNone None). reflexivity.
  - apply (proj2 (intake_creates_then_enqueues pending_store empty_stream
                    [("n", VInt (2 ^ 63))] "job-2" "async" 500 "1.0")).
    right. reflexivity.
Defined.

(** X8.  A webhook callback for a job in the store, with data that the
    driver of the store encodes, arriving at a time that differs from the
    job's [updated_at], is answered OK, and the status endpoint then reports the job as complete with the callback's data as
    result, the error text it had before, and the callback's time as
    [updated_at]. *)
Theorem webhook_then_status_reports_complete
    (jobs : gmap string job_doc) (vendor : string) (w : WebhookRequest)
    (now : Z) (d : job_doc) :
  jobs !! wh_job_id w = Some d ->
  updated_at d <> now ->
  bson_encodable (VDict (wh_data w)) = true ->
  snd (vendor_webhook jobs vendor w now) = OK
  /\ get_job_status (fst (vendor_webhook jobs vendor w now)) (wh_job_id w)
     = StatusOK {| r_status := COMPLETE; r_result := Some (wh_data w);
                   r_error := error d; r_created_at := created_at d;
                   r_updated_at := now |}.
Proof.
  intros Hd Hnow Henc. split.
  - unfold vendor_webhook.
    pose proof (update_job_status_new_time jobs (wh_job_id w) COMPLETE
                  (VDict (wh_data w)) None now d Hd Hnow Henc) as Hok.
    destruct (update_job_status jobs (wh_job_id w) COMPLETE
                (VDict (wh_data w)) None now) as [jobs' updated].
    cbn in Hok. now rewrite Hok.
  - unfold get_job_status, get_job.
    rewrite vendor_webhook_fst, update_job_status_lookup_eq, Henc, Hd.
    reflexivity.
Qed.

Lemma webhook_then_status_reports_complete_witness :
  snd (vendor_webhook failed_store "async" callback 400) = OK
  /\ get_job_status (fst (vendor_webhook failed_store "async" callback 400))
       "job-1"
     = StatusOK {| r_status := COMPLETE; r_result := Some [("r", VInt 1)];
                   r_error := Some "Sync vendor call failed";
                   r_created_at := 100; r_updated_at := 400 |}.
Proof.
  apply (webhook_then_status_reports_complete failed_store "async" callback 400
           (job_in FAILED VNone (Some "Sync vendor call failed"))).
  - reflexivity.
  - discriminate.
  - reflexivity.
Defined.

(** X9.  Of two webhook callbacks for the same job the later one wins when
    the driver of the store encodes its data: the store after both is then
    the store after the second alone, whatever the first carried.  A second
    callback whose data the driver does not encode changes nothing: the
    store after both is the store after the first. *)
Theorem webhook_last_callback_wins
    (jobs : gmap string job_doc) (vendor1 vendor2 : string)
    (w1 w2 : WebhookRequest) (now1 now2 : Z) :
  wh_job_id w1 = wh_job_id w2 ->
  (bson_encodable (VDict (wh_data w2)) = true ->
   fst (vendor_webhook (fst (vendor_webhook jobs vendor1 w1 now1))
          vendor2 w2 now2)
   = fst (vendor_webhook jobs vendor2 w2 now2))
  /\ (bson_encodable (VDict (wh_data w2)) = false ->
      fst (vendor_webhook (fst (vendor_webhook jobs vendor1 w1 now1))
             vendor2 w2 now2)
      = fst (vendor_webhook jobs vendor1 w1 now1)).
Proof.
  intros Hid. split; intros Henc.
  - rewrite !vendor_webhook_fst. apply map_eq. intros j.
    rewrite !update_job_status_lookup, Hid, Henc.
    destruct (bson_encodable (VDict (wh_data w1)));
      destruct (decide (j = wh_job_id w2)); try reflexivity;
      destruct (jobs !! j); reflexivity.
  - rewrite (vendor_webhook_fst _ vendor2).
    now rewrite update_job_status_unencodable.
Qed.

Lemma webhook_last_callback_wins_witness :
  fst (vendor_webhook
         (fst (vendor_webhook pending_store "async"
                 {| wh_job_id := "job-1"; wh_data := [("old", VInt 0)] |} 300))
         "async" callback 400)
  = fst (vendor_webhook pending_store "async" callback 400)
  /\ fst (vendor_webhook
            (fst (vendor_webhook pending_store "async" callback 300))
            "async" oversized_callback 400)
     = fst (vendor_webhook pending_store "async" callback 300).
Proof.
  split.
  - apply (proj1 (webhook_last_callback_wins pending_store "async" "async"
                    {| wh_job_id := "job-1"; wh_data := [("old", VInt 0)] |}
                    callback 300 400 eq_refl)).
    reflexivity.
  - apply (proj2 (webhook_last_callback_wins pending_store "async" "async"
                    callback oversized_callback 300 400 eq_refl)).
    reflexivity.
Defined.

(** ** The dispatcher *)

Section AsyncPath.

Variables (env : environment) (vc : VendorClient).
Variables (jobs : gmap string job_doc) (r : VendorRequest).

Hypothesis routed_async : (str_hash env (job_id r) mod 2 <> 0)%Z.

(** The outcome of [process_job] on the asynchronous branch. *)
Lemma process_job_async :
  let accepted :=
    match http_post env (async_request vc r) with
    | TransportError => false
    | Response status_code _ => (status_code =? 200)%Z
    end in
  let jobs1 := fst (update_job_status jobs (job_id r) PROCESSING VNone None
                      (utcnow_1 env)) in
  process_job env vc jobs r
  = {| jobs_after :=
         if accepted then jobs1
         else fst (update_job_status jobs1 (job_id r) FAILED VNone
                     (Some "Async vendor call failed") (utcnow_2 env));
       client_after :=
         {| sync_url := sync_url vc; async_url := async_url vc;
            api_url := api_url vc;
            sync_rate_limiter := sync_rate_limiter vc;
            async_rate_limiter :=
              fst (wait_if_needed (async_rate_limiter vc)
                     (time_enter env) (time_leave env)) |};
       routed := "async";
       sent := async_request vc r |}.
Proof.
  cbv zeta. unfold process_job. cbv zeta.
  apply Z.eqb_neq in routed_async. rewrite routed_async.
  change (String.eqb "async" "sync") with false. cbv iota.
  unfold call_async_vendor. cbv zeta. fold (async_request vc r).
  reflexivity.
Qed.

End AsyncPath.

Section SyncOutcome.

Variables (env : environment) (vc : VendorClient).
Variables (jobs : gmap string job_doc) (r : VendorRequest).

Hypothesis routed_sync : (str_hash env (job_id r) mod 2 = 0)%Z.

(** The outcome of [process_job] on the synchronous branch. *)
Lemma process_job_sync :
  let result := sync_result (http_post env (sync_request vc r)) in
  let jobs1 := fst (update_job_status jobs (job_id r) PROCESSING VNone None
                      (utcnow_1 env)) in
  process_job env vc jobs r
  = {| jobs_after :=
         if truthy result then
           match result with
           | VDict body =>
               fst (update_job_status jobs1 (job_id r) COMPLETE
                      (clean_vendor_data (data_of body)) None (utcnow_2 env))
           | _ =>
               fst (update_job_status jobs1 (job_id r) FAILED VNone
                      (Some (no_get_attribute result)) (utcnow_2 env))
           end
         else
           fst (update_job_status jobs1 (job_id r) FAILED VNone
                  (Some "Sync vendor call failed") (utcnow_2 env));
       client_after :=
         {| sync_url := sync_url vc; async_url := async_url vc;
            api_url := api_url vc;
            sync_rate_limiter :=
              fst (wait_if_needed (sync_rate_limiter vc)
                     (time_enter env) (time_leave env));
            async_rate_limiter := async_rate_limiter vc |};
       routed := "sync";
       sent := sync_request vc r |}.
Proof.
  cbv zeta. unfold process_job. cbv zeta.
  rewrite routed_sync. cbn [Z.eqb].
  change (String.eqb "sync" "sync") with true. cbv iota.
  unfold call_sync_vendor. cbv zeta.
  fold (sync_request vc r).
  fold (sync_result (http_post env (sync_request vc r))).
  destruct (truthy (sync_result (http_post env (sync_request vc r))));
    [|reflexivity].
  destruct (sync_result (http_post env (sync_request vc r))); reflexivity.
Qed.

End SyncOutcome.

(** X10.  A job in the store that is routed to the asynchronous vendor and
    accepted (status 200) is left [PROCESSING]: its result and error are what
    they were, and the request posted carried the job id, the payload and the
    callback address [api_url/vendor-webhook/async]. *)
Theorem async_accepted_leaves_processing
    (env : environment) (vc : VendorClient) (jobs : gmap string job_doc)
    (r : VendorRequest) (d : job_doc) (body : option value) :
  jobs !! job_id r = Some d ->
  (str_hash env (job_id r) mod 2 <> 0)%Z ->
  http_post env (async_request vc r) = Response 200 body ->
  let o := process_job env vc jobs r in
  jobs_after o !! job_id r
  = Some {| payload := payload d; status := PROCESSING;
            created_at := created_at d; updated_at := utcnow_1 env;
            result := result d; error := error d |}
  /\ sent o
     = {| url := async_url vc ++ "/process";
          json := VDict [("job_id", VStr (job_id r));
                         ("payload", VDict (vr_payload r));
                         ("webhook_url",
                          VStr (api_url vc ++ "/vendor-webhook/async"))] |}.
Proof.
  intros Hd Hhash Hpost o. subst o.
  rewrite (process_job_async env vc jobs r Hhash). cbv zeta.
  rewrite Hpost. cbn [Z.eqb Pos.eqb jobs_after sent].
  rewrite update_job_status_lookup_eq, Hd. split; reflexivity.
Qed.

Lemma async_accepted_leaves_processing_witness :
  jobs_after (process_job (env_with 1 (Response 200 None)) client
                complete_store request) !! "job-1"
  = Some {| payload := [("x", VInt 1)]; status := PROCESSING;
            created_at := 100; updated_at := 200;
            result := VDict [("r", VInt 1)]; error := None |}
  /\ sent (process_job (env_with 1 (Response 200 None)) client complete_store
             request)
     = {| url := "http://localhost:8002/process";
          json := VDict [("job_id", VStr "job-1");
                         ("payload", VDict [("x", VInt 1)]);
                         ("webhook_url",
                          VStr "http://localhost:8000/vendor-webhook/async")] |}.
Proof.
  apply (async_accepted_leaves_processing (env_with 1 (Response 200 None))
           client complete_store request
           (job_in COMPLETE (VDict [("r", VInt 1)]) None) None).
  - reflexivity.
  - discriminate.
  - reflexivity.
Defined.

(** X11.  A job in the store that is routed to the asynchronous vendor is
    marked [FAILED] with the error text "Async vendor call failed" when the
    call fails at the transport level or is answered with a status other
    than 200; its result is what it was. *)
Theorem async_failure_marks_job_failed
    (env : environment) (vc : VendorClient) (jobs : gmap string job_doc)
    (r : VendorRequest) (d : job_doc) :
  jobs !! job_id r = Some d ->
  (str_hash env (job_id r) mod 2 <> 0)%Z ->
  (http_post env (async_request vc r) = TransportError
   \/ exists code body,
        http_post env (async_request vc r) = Response code body
        /\ code <> 200%Z) ->
  jobs_after (process_job env vc jobs r) !! job_id r
  = Some {| payload := payload d; status := FAILED;
            created_at := created_at d; updated_at := utcnow_2 env;
            result := result d; error := Some "Async vendor call failed" |}.
Proof.
  intros Hd Hhash Hfail.
  rewrite (process_job_async env vc jobs r Hhash). cbv zeta.
  assert (Hno : match http_post env (async_request vc r) with
                | TransportError => false
                | Response status_code _ => (status_code =? 200)%Z
                end = false).
  { destruct Hfail as [->|(code & body & -> & Hcode)]; [reflexivity|].
    now apply Z.eqb_neq. }
  rewrite Hno. cbn [jobs_after].
  rewrite !update_job_status_lookup_eq, Hd. reflexivity.
Qed.

Lemma async_failure_marks_job_failed_witness :
  jobs_after (process_job (env_with 1 TransportError) client pending_store
                request) !! "job-1"
  = Some {| payload := [("x", VInt 1)]; status := FAILED;
            created_at := 100; updated_at := 300;
            result := VNone; error := Some "Async vendor call failed" |}.
Proof.
  apply (async_failure_marks_job_failed (env_with 1 TransportError) client
           pending_store request (job_in PENDING VNone None)).
  - reflexivity.
  - discriminate.
  - now left.
Defined.

(** X12.  A job in the store that is routed to the synchronous vendor fails
    when the answer has status 200 but no usable body.  If the body is not
    JSON, or is [null], [false], zero, an empty string, an empty array or an
    empty object, the error is "Sync vendor call failed"; if it is any other
    value that is not an object, the error is the text of the attribute
    error raised by [result.get]. *)
Theorem sync_unusable_body_marks_job_failed
    (env : environment) (vc : VendorClient) (jobs : gmap string job_doc)
    (r : VendorRequest) (d : job_doc) (body : option value) :
  jobs !! job_id r = Some d ->
  (str_hash env (job_id r) mod 2 = 0)%Z ->
  http_post env (sync_request vc r) = Response 200 body ->
  let v := match body with Some v => v | None => VNone end in
  truthy v = false \/ is_dict v = false ->
  jobs_after (process_job env vc jobs r) !! job_id r
  = Some {| payload := payload d; status := FAILED;
            created_at := created_at d; updated_at := utcnow_2 env;
            result := result d;
            error := Some (if truthy v
                           then "'" ++ type_name v
                                ++ "' object has no attribute 'get'"
                           else "Sync vendor call failed") |}.
Proof.
  intros Hd Hhash Hpost v Hv.
  rewrite (process_job_sync env vc jobs r Hhash). cbv zeta.
  rewrite Hpost. cbn [sync_result Z.eqb Pos.eqb jobs_after]. fold v.
  destruct (truthy v) eqn:Ht.
  - destruct Hv as [Hv|Hv]; [discriminate|].
    destruct v; try discriminate;
      rewrite !update_job_status_lookup_eq, Hd; reflexivity.
  - rewrite !update_job_status_lookup_eq, Hd. reflexivity.
Qed.

Lemma sync_unusable_body_marks_job_failed_witness :
  jobs_after (process_job (env_with 0 (Response 200 (Some (VList [VInt 1]))))
                client pending_store request) !! "job-1"
  = Some {| payload := [("x", VInt 1)]; status := FAILED;
            created_at := 100; updated_at := 300; result := VNone;
            error := Some "'list' object has no attribute 'get'" |}.
Proof.
  apply (sync_unusable_body_marks_job_failed
           (env_with 0 (Response 200 (Some (VList [VInt 1])))) client
           pending_store request (job_in PENDING VNone None)
           (Some (VList [VInt 1]))).
  - reflexivity.
  - reflexivity.
  - reflexivity.
  - now right.
Defined.

(** X13.  The synchronous path does not look at the [success] field of the
    answer: a 200 answer that is a non-empty object without a [data] field,
    such as [{"success": false, "error": ...}], completes the job with the
    empty object as result, and the job's error field is left as it was. *)
Theorem sync_answer_without_data_completes_job
    (env : environment) (vc : VendorClient) (jobs : gmap string job_doc)
    (r : VendorRequest) (d : job_doc) (body : dict) :
  jobs !! job_id r = Some d ->
  (str_hash env (job_id r) mod 2 = 0)%Z ->
  http_post env (sync_request vc r) = Response 200 (Some (VDict body)) ->
  body <> [] ->
  dict_get "data" body = None ->
  jobs_after (process_job env vc jobs r) !! job_id r
  = Some {| payload := payload d; status := COMPLETE;
            created_at := created_at d; updated_at := utcnow_2 env;
            result := VDict []; error := error d |}.
Proof.
  intros Hd Hhash Hpost Hbody Hdata.
  rewrite (process_job_sync env vc jobs r Hhash). cbv zeta.
  rewrite Hpost. cbn [sync_result Z.eqb Pos.eqb jobs_after].
  assert (Ht : truthy (VDict body) = true)
    by (destruct body; [contradiction | reflexivity]).
  rewrite Ht. unfold data_of. rewrite Hdata.
  rewrite !update_job_status_lookup_eq, Hd. reflexivity.
Qed.

Lemma sync_answer_without_data_completes_job_witness :
  jobs_after (process_job
                (env_with 0 (Response 200
                               (Some (VDict [("success", VBool false);
                                             ("error", VStr "quota")]))))
                client pending_store request) !! "job-1"
  = Some {| payload := [("x", VInt 1)]; status := COMPLETE;
            created_at := 100; updated_at := 300;
            result := VDict []; error := None |}.
Proof.
  apply (sync_answer_without_data_completes_job
           (env_with 0 (Response 200
                          (Some (VDict [("success", VBool false);
                                        ("error", VStr "quota")]))))
           client pending_store request (job_in PENDING VNone None)
           [("success", VBool false); ("error", VStr "quota")]).
  - reflexivity.
  - reflexivity.
  - reflexivity.
  - discriminate.
  - reflexivity.
Defined.

(** X14.  [process_job] writes to no job but its own: every other job's
    document is what it was; and when its own job is not in the store, the
    store is left as it was (no job is created), although the vendor is
    still called. *)
Theorem process_job_touches_only_its_job
    (env : environment) (vc : VendorClient) (jobs : gmap string job_doc)
    (r : VendorRequest) :
  (forall j, j <> job_id r ->
             jobs_after (process_job env vc jobs r) !! j = jobs !! j)
  /\ (jobs !! job_id r = None ->
      jobs_after (process_job env vc jobs r) = jobs
      /\ url (sent (process_job env vc jobs r))
         = (if (str_hash env (job_id r) mod 2 =? 0)%Z
            then sync_url vc ++ "/process" else async_url vc ++ "/process")).
Proof.
  destruct (process_job_updates env vc jobs r)
    as (st1 & res1 & err1 & now1 & H). cbv zeta in H. split.
  - intros j Hj. destruct H as [-> | ->];
      rewrite !update_job_status_lookup_ne by exact Hj; reflexivity.
  - intros Hnone. split.
    + destruct H as [-> | ->];
        rewrite (update_job_status_snd_absent jobs) by exact Hnone;
        cbn [fst]; [reflexivity|].
      now rewrite update_job_status_snd_absent by exact Hnone.
    + destruct (str_hash env (job_id r) mod 2 =? 0)%Z eqn:E.
      * apply Z.eqb_eq in E. now rewrite (process_job_sync env vc jobs r E).
      * apply Z.eqb_neq in E. now rewrite (process_job_async env vc jobs r E).
Qed.

Lemma process_job_touches_only_its_job_witness :
  jobs_after (process_job (env_with 0 (success_with (VDict []))) client
                pending_store
                {| job_id := "job-7"; vr_payload := [] |}) !! "job-1"
  = pending_store !! "job-1"
  /\ jobs_after (process_job (env_with 0 (success_with (VDict []))) client
                   pending_store
                   {| job_id := "job-7"; vr_payload := [] |})
     = pending_store.
Proof.
  destruct (process_job_touches_only_its_job
              (env_with 0 (success_with (VDict []))) client pending_store
              {| job_id := "job-7"; vr_payload := [] |}) as [A B].
  split.
  - apply A. discriminate.
  - apply B. reflexivity.
Defined.

(** X15.  A job uses the rate limiter of its own channel only: after
    [process_job] the limiter of the channel the job was routed to has the
    time the call was admitted as its last call time, the limiter of the
    other channel is unchanged, and the intervals and addresses of the
    client are unchanged. *)
Theorem process_job_uses_one_rate_limiter
    (env : environment) (vc : VendorClient) (jobs : gmap string job_doc)
    (r : VendorRequest) :
  let vc' := client_after (process_job env vc jobs r) in
  let used (c : VendorClient) :=
    if (str_hash env (job_id r) mod 2 =? 0)%Z
    then sync_rate_limiter c else async_rate_limiter c in
  let other (c : VendorClient) :=
    if (str_hash env (job_id r) mod 2 =? 0)%Z
    then async_rate_limiter c else sync_rate_limiter c in
  last_call_time (used vc') = time_leave env
  /\ min_interval (used vc') = min_interval (used vc)
  /\ other vc' = other vc
  /\ (sync_url vc', async_url vc', api_url vc')
     = (sync_url vc, async_url vc, api_url vc).
Proof.
  cbv zeta. destruct (str_hash env (job_id r) mod 2 =? 0)%Z eqn:E.
  - apply Z.eqb_eq in E. rewrite (process_job_sync env vc jobs r E).
    cbn. auto.
  - apply Z.eqb_neq in E. rewrite (process_job_async env vc jobs r E).
    cbn. auto.
Qed.

(** ** The worker loop *)

Section Loop.

Lemma run_iteration_next env w e es r :
  undelivered (w_queue w) = e :: es ->
  request_of e = Some r ->
  let o := process_job env (w_client w) (w_jobs w) r in
  w_jobs (run_iteration env w) = jobs_after o
  /\ w_client (run_iteration env w) = client_after o
  /\ undelivered (w_queue (run_iteration env w)) = es
  /\ entries (w_queue (run_iteration env w)) = entries (w_queue w)
  /\ last_delivered (w_queue (run_iteration env w))
     = S (last_delivered (w_queue w)).
Proof.
  intros Hu Hr.
  destruct (dequeue_job_next (w_queue w) e es r Hu Hr)
    as (q' & D & E & L & U & P).
  unfold run_iteration, run_dequeue. rewrite D. cbn. auto.
Qed.

Lemma run_iteration_idle env w :
  undelivered (w_queue w) = [] -> run_iteration env w = w.
Proof.
  intros Hu. unfold run_iteration, run_dequeue.
  rewrite (undelivered_nil_dequeue _ Hu). now destruct w.
Qed.

(** [process_job] leaves its own job, when it is in the store, with a
    status other than [PENDING]. *)
Lemma process_job_own_status env vc (jobs : gmap string job_doc) r d :
  jobs !! job_id r = Some d ->
  exists d',
    jobs_after (process_job env vc jobs r) !! job_id r = Some d'
    /\ status d' <> PENDING
    /\ payload d' = payload d
    /\ created_at d' = created_at d.
Proof.
  intros Hd. destruct (str_hash env (job_id r) mod 2 =? 0)%Z eqn:E.
  - apply Z.eqb_eq in E. rewrite (process_job_sync env vc jobs r E).
    cbv zeta. cbn [jobs_after].
    destruct (truthy (sync_result (http_post env (sync_request vc r))));
      [destruct (sync_result (http_post env (sync_request vc r)))|];
      rewrite !update_job_status_lookup_eq, Hd;
      change (bson_encodable VNone) with true; cbv iota;
      try match goal with
      | |- context [if bson_encodable ?v then _ else _] =>
          destruct (bson_encodable v)
      end;
      cbn; eexists;
      (split; [reflexivity|]); cbn; repeat split; discriminate.
  - apply Z.eqb_neq in E. rewrite (process_job_async env vc jobs r E).
    cbv zeta. cbn [jobs_after].
    destruct (match http_post env (async_request vc r) with
              | TransportError => false
              | Response status_code _ => (status_code =? 200)%Z
              end);
      rewrite !update_job_status_lookup_eq, Hd; cbn; eexists;
      (split; [reflexivity|]); cbn; repeat split; discriminate.
Qed.

(** What an OK of the intake tells: the id was new, the driver encoded
    the payload, and the job and its entry are the ones created. *)
Lemma intake_ok_inv (jobs : gmap string job_doc) q pl request_id vendor_type
    now ts jobs1 q1 :
  Api.create_job jobs q pl request_id vendor_type now ts = (jobs1, q1, OK) ->
  jobs !! request_id = None
  /\ bson_encodable (VDict pl) = true
  /\ jobs1 = <[request_id :=
                 {| payload := pl; status := PENDING; created_at := now;
                    updated_at := now; result := VNone; error := None |}]>
               jobs
  /\ q1 = xadd q {| e_request_id := request_id; e_payload := VDict pl;
                    e_vendor_type := vendor_type; e_timestamp := ts |}.
Proof.
  unfold Api.create_job.
  destruct (jobs !! request_id) as [d|] eqn:Hd.
  - rewrite (create_job_existing jobs request_id pl now d Hd). discriminate.
  - destruct (bson_encodable (VDict pl)) eqn:Hpl.
    + rewrite (create_job_fresh jobs request_id pl now Hd Hpl).
      cbn [enqueue_job]. intros [= <- <-]. repeat split.
    + rewrite (create_job_unencodable jobs request_id pl now Hpl).
      discriminate.
Qed.

End Loop.

(** X16.  The worker loop handles the undelivered entries of the queue in
    the order of the log, one per iteration: after as many iterations as
    there are undelivered entries, store and client are what [process_job]
    makes of them job after job, nothing is left undelivered, and a further
    iteration changes nothing. *)
Theorem worker_loop_processes_in_queue_order
    (envs : list environment) (w : worker) (rs : list VendorRequest) :
  Forall2 (fun e r => request_of e = Some r) (undelivered (w_queue w)) rs ->
  length envs = length rs ->
  let w' := run_iterations envs w in
  (w_jobs w', w_client w')
  = process_all (combine envs rs) (w_jobs w) (w_client w)
  /\ undelivered (w_queue w') = []
  /\ entries (w_queue w') = entries (w_queue w)
  /\ (forall env, run_iteration env w' = w').
Proof.
  remember (undelivered (w_queue w)) as es eqn:Hes. intros HF. symmetry in Hes.
  revert envs w Hes. induction HF as [|e r es rs He HF IH]; intros envs w Hes Hlen.
  - destruct envs; [|discriminate]. cbn.
    repeat split; auto. intros env. now apply run_iteration_idle.
  - destruct envs as [|env envs]; [discriminate|]. injection Hlen as Hlen.
    destruct (run_iteration_next env w e es r Hes He) as (J & C & U & E & _).
    cbv zeta in J, C.
    destruct (IH envs (run_iteration env w) U Hlen) as (P' & U' & E' & I').
    change (run_iterations (env :: envs) w)
      with (run_iterations envs (run_iteration env w)).
    cbv zeta. repeat split; auto.
    + rewrite P'. unfold process_all. cbn [combine fold_left fst snd].
      now rewrite J, C.
    + congruence.
Qed.

Lemma worker_loop_processes_in_queue_order_witness :
  let w := worker_with (one_entry_queue "async") in
  let envs := [env_with 0 (Response 500 None)] in
  (w_jobs (run_iterations envs w), w_client (run_iterations envs w))
  = process_all (combine envs [request]) (w_jobs w) (w_client w)
  /\ undelivered (w_queue (run_iterations envs w)) = []
  /\ entries (w_queue (run_iterations envs w)) = entries (w_queue w)
  /\ (forall env, run_iteration env (run_iterations envs w)
                  = run_iterations envs w).
Proof.
  apply (worker_loop_processes_in_queue_order
           [env_with 0 (Response 500 None)]
           (worker_with (one_entry_queue "async")) [request]).
  - repeat constructor.
  - reflexivity.
Defined.

(** X17.  A job accepted by the intake (the intake answered OK), on a queue
    with nothing undelivered, is no longer pending after one iteration of a
    worker on the store and queue the intake left: it is in the store with a
    status other than [PENDING], with the payload and creation time the
    intake gave it, and nothing is left undelivered. *)
Theorem accepted_job_leaves_pending_after_one_iteration
    (env : environment) (vc : VendorClient) (jobs jobs1 : gmap string job_doc)
    (q q1 : stream) (pl : dict) (request_id vendor_type : string) (now : Z)
    (ts : string) :
  Api.create_job jobs q pl request_id vendor_type now ts = (jobs1, q1, OK) ->
  drained q ->
  let w' := run_iteration env
              {| w_jobs := jobs1; w_queue := q1; w_client := vc |} in
  exists d',
    w_jobs w' !! request_id = Some d'
    /\ status d' <> PENDING
    /\ payload d' = pl
    /\ created_at d' = now
    /\ drained (w_queue w').
Proof.
  intros Hok Hq.
  apply intake_ok_inv in Hok as (Hfresh & Hpl & -> & ->).
  set (jobs1 := <[request_id := _]> jobs).
  set (e := {| e_request_id := request_id; e_payload := VDict pl;
               e_vendor_type := vendor_type; e_timestamp := ts |}).
  set (w := {| w_jobs := jobs1; w_queue := xadd q e; w_client := vc |}).
  assert (Hu : undelivered (w_queue w) = [e]).
  { cbn. unfold undelivered, xadd. cbn. rewrite Hq.
    rewrite drop_app_length. reflexivity. }
  destruct (run_iteration_next env w e []
              {| job_id := request_id; vr_payload := pl |} Hu eq_refl)
    as (J & _ & U & E & L').
  cbv zeta in J.
  destruct (process_job_own_status env vc jobs1
              {| job_id := request_id; vr_payload := pl |}
              {| payload := pl; status := PENDING; created_at := now;
                 updated_at := now; result := VNone; error := None |})
    as (d' & L & S & P & C).
  { subst jobs1. cbn. apply lookup_insert_eq. }
  exists d'. rewrite J. cbn in L. repeat split; auto.
  unfold drained. rewrite L', E. subst w. cbn. rewrite length_app, Hq. cbn. lia.
Qed.

Lemma accepted_job_leaves_pending_after_one_iteration_witness :
  exists d',
    w_jobs (run_iteration (env_with 0 (Response 500 None))
              {| w_jobs :=
                   fst (Database.create_job pending_store "job-2"
                          [("y", VInt 2)] 500);
                 w_queue :=
                   fst (enqueue_job empty_stream "job-2" [("y", VInt 2)]
                          "async" "1.0");
                 w_client := client |}) !! "job-2" = Some d'
    /\ status d' = FAILED
    /\ payload d' = [("y", VInt 2)].
Proof.
  destruct (accepted_job_leaves_pending_after_one_iteration
              (env_with 0 (Response 500 None)) client pending_store
              (fst (Database.create_job pending_store "job-2"
                      [("y", VInt 2)] 500))
              empty_stream
              (fst (enqueue_job empty_stream "job-2" [("y", VInt 2)]
                      "async" "1.0"))
              [("y", VInt 2)] "job-2" "async" 500 "1.0")
    as (d' & L & S & P & _); [reflexivity | reflexivity |].
  exists d'. split; [exact L|]. split; [|exact P].
  vm_compute in L. injection L as <-. reflexivity.
Defined.



(** ** The sanitizer, key by key *)

Section PerKey.

Lemma dict_get_map (g : string -> value -> value) k d :
  dict_get k (map (fun kv => (fst kv, g (fst kv) (snd kv))) d)
  = g k <$> dict_get k d.
Proof.
  induction d as [|[k' v] d IH]; cbn; [reflexivity|].
  destruct (String.eqb_spec k' k) as [->|Hne]; [reflexivity | exact IH].
Qed.

Lemma clean_vendor_data_distinct_keys d :
  NoDup (keys d) ->
  clean_vendor_data (VDict d)
  = VDict (map (fun kv => (fst kv, clean_field (fst kv) (snd kv))) d).
Proof.
  intros H. rewrite clean_vendor_data_dict. f_equal.
  now rewrite dict_fold_NoDup.
Qed.

Lemma distinct_keys_by_computation d :
  bool_decide (NoDup (keys d)) = true -> NoDup (keys d).
Proof. apply bool_decide_eq_true_1. Qed.

Lemma append_cons c a b : String c a ++ b = String c (a ++ b).
Proof. reflexivity. Qed.

Lemma append_nil b : "" ++ b = b.
Proof. reflexivity. Qed.

Lemma lstrip_split s :
  exists pre, s = pre ++ lstrip s /\ all_space pre = true.
Proof.
  induction s as [|c s (pre & E & A)]; [now exists ""|]. cbn [lstrip].
  destruct (py_isspace c) eqn:Ec.
  - exists (String c pre). rewrite append_cons. cbn [all_space].
    rewrite Ec, A. split; [f_equal; exact E | reflexivity].
  - now exists "".
Qed.

Lemma rstrip_split s :
  exists post, s = rstrip s ++ post /\ all_space post = true.
Proof.
  induction s as [|c s (post & E & A)]; [now exists ""|]. cbn [rstrip].
  destruct (rstrip s) as [|c' t] eqn:R.
  - rewrite append_nil in E. destruct (py_isspace c) eqn:Ec.
    + exists (String c post). rewrite append_nil. cbn [all_space].
      rewrite Ec, A. split; [f_equal; exact E | reflexivity].
    + exists post. rewrite append_cons, append_nil.
      split; [f_equal; exact E | exact A].
  - exists post. split; [|exact A]. rewrite append_cons. f_equal. exact E.
Qed.

Lemma rstrip_ends_clean s : ends_clean (rstrip s).
Proof.
  induction s as [|c s IH]; cbn [rstrip]; [exact I|].
  destruct (rstrip s) as [|c' t] eqn:R.
  - destruct (py_isspace c) eqn:Ec; cbn [ends_clean]; [exact I | exact Ec].
  - exact IH.
Qed.

Lemma lower_app a b : lower (a ++ b) = lower a ++ lower b.
Proof.
  induction a as [|c a IH]; [reflexivity|].
  rewrite append_cons. cbn [lower]. rewrite append_cons, IH. reflexivity.
Qed.

Lemma lower_split k : forall a b,
  lower k = a ++ b ->
  exists k1 k2, k = k1 ++ k2 /\ lower k1 = a /\ lower k2 = b.
Proof.
  induction k as [|c k IH]; intros a b H.
  - destruct a as [|c' a].
    + rewrite append_nil in H. exists "", "". auto.
    + rewrite append_cons in H. discriminate.
  - destruct a as [|c' a].
    + rewrite append_nil in H. exists "", (String c k). auto.
    + rewrite append_cons in H. cbn [lower] in H. injection H as Hc Hk.
      destruct (IH a b Hk) as (k1 & k2 & -> & <- & <-).
      exists (String c k1), k2. rewrite append_cons. cbn [lower].
      rewrite Hc. auto.
Qed.

Lemma prefix_app p s : String.prefix p s = true <-> exists t, s = p ++ t.
Proof.
  revert s. induction p as [|c p IH]; intros s.
  - split; [intros _; now exists s | destruct s; reflexivity].
  - destruct s as [|c' s].
    + split; [discriminate|]. intros [t Ht]. rewrite append_cons in Ht.
      discriminate.
    + cbn [String.prefix]. destruct (Ascii.ascii_dec c c') as [->|Hne].
      * rewrite IH. split; intros [t Ht]; exists t.
        -- rewrite append_cons. now f_equal.
        -- rewrite append_cons in Ht. now injection Ht.
      * split; [discriminate|]. intros [t Ht]. rewrite append_cons in Ht.
        injection Ht as Hc _. congruence.
Qed.

Lemma contains_app p s :
  contains p s = true <-> exists a b, s = a ++ p ++ b.
Proof.
  induction s as [|c s IH].
  - cbn [contains]. rewrite orb_false_r, prefix_app. split.
    + intros [t Ht]. now exists "", t.
    + intros (a & b & H). destruct a as [|c' a].
      * now exists b.
      * rewrite append_cons in H. discriminate.
  - cbn [contains]. rewrite orb_true_iff, prefix_app, IH. split.
    + intros [[t Ht] | (a & b & Hab)].
      * now exists "", t.
      * exists (String c a), b. rewrite append_cons. now f_equal.
    + intros (a & b & H). destruct a as [|c' a].
      * left. now exists b.
      * right. rewrite append_cons in H. injection H as _ H. now exists a, b.
Qed.

End PerKey.

(** X19.  On a mapping with distinct keys [clean_vendor_data] keeps the keys
    and their order, and treats each field by itself: the cleaned value under
    a key is the redaction marker or the trimmed string for a string, the
    cleaned mapping for a mapping, the sequence with its mappings cleaned for
    a sequence, and the value itself for a number, a boolean or [None]. *)
Theorem clean_vendor_data_field_by_field (d : dict) :
  NoDup (keys d) ->
  exists d',
    clean_vendor_data (VDict d) = VDict d'
    /\ keys d' = keys d
    /\ (forall k,
           dict_get k d'
           = (fun v =>
                match v with
                | VStr s => VStr (if is_pii_key k then "[REDACTED]" else strip s)
                | VDict _ => clean_vendor_data v
                | VList l =>
                    VList (map (fun item =>
                                  if is_dict item then clean_vendor_data item
                                  else item) l)
                | _ => v
                end) <$> dict_get k d).
Proof.
  intros H. eexists. split; [now apply clean_vendor_data_distinct_keys|]. split.
  - unfold keys. rewrite map_map. reflexivity.
  - intros k. rewrite (dict_get_map clean_field).
    destruct (dict_get k d) as [v|]; [|reflexivity]. cbn. f_equal.
    destruct v; try reflexivity. cbn. f_equal. apply map_ext.
    intros item. destruct item; reflexivity.
Qed.

Lemma clean_vendor_data_field_by_field_witness :
  exists d',
    clean_vendor_data (VDict [("Email", VStr "a@b.c"); ("n", VInt 1)]) = VDict d'
    /\ keys d' = ["Email"; "n"].
Proof.
  destruct (clean_vendor_data_field_by_field
              [("Email", VStr "a@b.c"); ("n", VInt 1)]) as (d' & E & K & _).
  - apply distinct_keys_by_computation. vm_compute. reflexivity.
  - exists d'. split; [exact E | exact K].
Defined.

(** X20.  A string stored under a key that matches no identifying-information
    pattern loses surrounding whitespace and nothing else: the original is
    the cleaned string between two runs of whitespace, and the cleaned string
    neither starts nor ends with whitespace. *)
Theorem clean_vendor_data_trims_only_whitespace (d : dict) (key s : string) :
  NoDup (keys d) ->
  dict_get key d = Some (VStr s) ->
  is_pii_key key = false ->
  exists d' t pre post,
    clean_vendor_data (VDict d) = VDict d'
    /\ dict_get key d' = Some (VStr t)
    /\ s = pre ++ t ++ post
    /\ all_space pre = true
    /\ all_space post = true
    /\ starts_clean t
    /\ ends_clean t.
Proof.
  intros Hd Hget Hkey.
  destruct (lstrip_split s) as (pre & E1 & A1).
  destruct (rstrip_split (lstrip s)) as (post & E2 & A2).
  eexists. exists (strip s), pre, post.
  split; [now apply clean_vendor_data_distinct_keys|].
  rewrite (dict_get_map clean_field), Hget.
  cbn [fmap option_fmap option_map clean_field]. rewrite Hkey.
  split; [reflexivity|]. unfold strip.
  split; [now rewrite <- E2|].
  repeat split; auto.
  - apply rstrip_starts_clean, lstrip_starts_clean.
  - apply rstrip_ends_clean.
Qed.

Lemma clean_vendor_data_trims_only_whitespace_witness :
  exists d' t pre post,
    clean_vendor_data (VDict [("name", VStr "  John Doe  ")]) = VDict d'
    /\ dict_get "name" d' = Some (VStr t)
    /\ "  John Doe  " = pre ++ t ++ post
    /\ all_space pre = true
    /\ all_space post = true
    /\ starts_clean t
    /\ ends_clean t.
Proof.
  apply (clean_vendor_data_trims_only_whitespace
           [("name", VStr "  John Doe  ")] "name" "  John Doe  ").
  - apply distinct_keys_by_computation. vm_compute. reflexivity.
  - reflexivity.
  - reflexivity.
Defined.

(** X21.  A key matches an identifying-information pattern exactly when it
    contains one of the words email, phone, ssn, password, at any place and
    in any mix of upper and lower case. *)
Theorem is_pii_key_any_case_anywhere (key : string) :
  is_pii_key key = true
  <-> exists pre word post p,
        key = pre ++ word ++ post
        /\ lower word = p
        /\ In p ["email"; "phone"; "ssn"; "password"].
Proof.
  unfold is_pii_key. rewrite existsb_exists. split.
  - intros (p & Hin & Hc). apply contains_app in Hc as (a & b & Hab).
    apply lower_split in Hab as (k1 & k2 & -> & <- & Hk2).
    apply lower_split in Hk2 as (k3 & k4 & -> & <- & <-).
    exists k1, k3, k4, (lower k3). auto.
  - intros (pre & word & post & p & -> & Hw & Hin).
    exists p. split; [exact Hin|]. apply contains_app.
    exists (lower pre), (lower post). now rewrite !lower_app, Hw.
Qed.

Section FixedPoints.

Lemma well_keyed_list l :
  well_keyed (VList l) <-> Forall well_keyed l.
Proof.
  change (well_keyed (VList l))
    with (fold_right (fun x P => well_keyed x /\ P) True l).
  induction l as [|x l IH]; cbn [fold_right].
  - split; [constructor | exact (fun _ => I)].
  - rewrite IH. split; [intros [A B]; now constructor | now inversion 1].
Qed.

Lemma well_keyed_dict d :
  well_keyed (VDict d)
  <-> NoDup (keys d) /\ Forall (fun kv => well_keyed (snd kv)) d.
Proof.
  change (well_keyed (VDict d))
    with (NoDup (map fst d)
          /\ fold_right (fun kv P => well_keyed (snd kv) /\ P) True d).
  unfold keys.
  assert (H : fold_right (fun kv P => well_keyed (snd kv) /\ P) True d
              <-> Forall (fun kv => well_keyed (snd kv)) d).
  { induction d as [|x d IH]; cbn [fold_right].
    - split; [constructor | exact (fun _ => I)].
    - rewrite IH. split; [intros [A B]; now constructor | now inversion 1]. }
  now rewrite H.
Qed.

(** A field that is already sanitized is kept by the loop body. *)
Lemma clean_field_sanitized v :
  well_keyed v -> forall k, field_sanitized k v = true -> clean_field k v = v.
Proof.
  induction v as [ | b | z | f | s | l IHl | d IHd ] using value_nested_ind;
    intros Hw k Hs; try reflexivity.
  - cbn [field_sanitized] in Hs. cbn [clean_field].
    destruct (is_pii_key k); apply String.eqb_eq in Hs; now rewrite Hs.
  - cbn [clean_field]. f_equal. rewrite <- (map_id l) at 2.
    apply map_ext_Forall.
    apply well_keyed_list in Hw. cbn [field_sanitized] in Hs.
    rewrite forallb_forall in Hs. rewrite Forall_forall in *.
    intros x Hx. destruct x as [ | | | | | | d0 ]; try reflexivity.
    apply (IHl _ Hx (Hw _ Hx) "").
    apply (Hs (VDict d0)). now apply list_elem_of_In.
  - change (clean_field k (VDict d)) with (clean_vendor_data (VDict d)).
    apply well_keyed_dict in Hw as [Hnd Hw].
    rewrite clean_vendor_data_distinct_keys by exact Hnd. f_equal.
    rewrite <- (map_id d) at 2. apply map_ext_Forall.
    change (field_sanitized k (VDict d)) with (sanitized (VDict d)) in Hs.
    rewrite sanitized_dict, forallb_forall in Hs. rewrite Forall_forall in *.
    intros [k' x] Hx. cbn. f_equal.
    apply (IHd _ Hx (Hw _ Hx) k').
    apply (Hs (k', x)). now apply list_elem_of_In.
Qed.

End FixedPoints.

(** X22.  On values whose mappings have distinct keys, the values that
    [clean_vendor_data] returns unchanged are exactly the sanitized ones:
    those in which every string directly under a matching key is the
    redaction marker and every other string directly under a key is trimmed,
    through the mappings under keys and the mappings inside sequences under
    keys. *)
Theorem clean_vendor_data_fixed_points (v : value) :
  well_keyed v ->
  (clean_vendor_data v = v <-> sanitized v = true).
Proof.
  intros Hw. split.
  - intros H. rewrite <- H. apply sanitized_clean.
  - intros Hs. destruct v as [ | | | | | | d ]; try reflexivity.
    exact (clean_field_sanitized (VDict d) Hw "" Hs).
Qed.

Lemma clean_vendor_data_fixed_points_witness :
  clean_vendor_data
    (VDict [("email", VStr "[REDACTED]"); ("tags", VList [VStr " a "])])
  = VDict [("email", VStr "[REDACTED]"); ("tags", VList [VStr " a "])]
  <-> sanitized
        (VDict [("email", VStr "[REDACTED]"); ("tags", VList [VStr " a "])])
      = true.
Proof.
  apply (clean_vendor_data_fixed_points
           (VDict [("email", VStr "[REDACTED]"); ("tags", VList [VStr " a "])])).
  cbn. split; [|tauto].
  apply (bool_decide_eq_true_1 (NoDup ["email"; "tags"])). vm_compute.
  reflexivity.
Defined.

(** ** The vendor mocks *)

Import VendorMocks.

Section MockLimit.

Lemma check_rate_limit_in_window m max t :
  (t - last_reset_time m < 60)%Q ->
  check_rate_limit m max t
  = if (max <=? rate_limit_counter m)%Z then (m, false)
    else ({| vendor_type := vendor_type m;
             rate_limit_counter := rate_limit_counter m + 1;
             last_reset_time := last_reset_time m |}, true).
Proof.
  intros H. unfold check_rate_limit.
  destruct (Qle_bool 60 (t - last_reset_time m)) eqn:E; [|reflexivity].
  apply Qle_bool_iff in E. exfalso. apply (Qlt_not_le _ _ H E).
Qed.

Lemma check_rate_limit_after_window m max t :
  (60 <= t - last_reset_time m)%Q ->
  check_rate_limit m max t
  = if (max <=? 0)%Z
    then ({| vendor_type := vendor_type m; rate_limit_counter := 0;
             last_reset_time := t |}, false)
    else ({| vendor_type := vendor_type m; rate_limit_counter := 1;
             last_reset_time := t |}, true).
Proof.
  intros H. unfold check_rate_limit.
  apply Qle_bool_iff in H. rewrite H. cbn.
  destruct (max <=? 0)%Z; reflexivity.
Qed.

(** A run of calls inside one window. *)
Lemma check_all_in_window max times : forall m,
  Forall (fun t => (t - last_reset_time m < 60)%Q) times ->
  let k := Nat.min (length times) (Z.to_nat (max - rate_limit_counter m)) in
  check_all m max times
  = ({| vendor_type := vendor_type m;
        rate_limit_counter := rate_limit_counter m + Z.of_nat k;
        last_reset_time := last_reset_time m |},
     (replicate k true ++ replicate (length times - k) false)%list).
Proof.
  induction times as [|t times IH]; intros m H.
  - cbn. rewrite Z.add_0_r. now destruct m.
  - inversion H as [|? ? Ht Hrest]; subst.
    cbn [check_all]. rewrite (check_rate_limit_in_window m _ t Ht).
    destruct (max <=? rate_limit_counter m)%Z eqn:E.
    + apply Z.leb_le in E. rewrite (IH m Hrest). cbv zeta. cbn [length].
      replace (Z.to_nat (max - rate_limit_counter m)) with 0%nat by lia.
      rewrite !Nat.min_0_r, !Nat.sub_0_r. reflexivity.
    + apply Z.leb_gt in E.
      set (m1 := {| vendor_type := vendor_type m;
                    rate_limit_counter := rate_limit_counter m + 1;
                    last_reset_time := last_reset_time m |}).
      rewrite (IH m1 Hrest). cbv zeta.
      cbn [rate_limit_counter last_reset_time vendor_type m1 length].
      replace (Z.to_nat (max - rate_limit_counter m))
        with (S (Z.to_nat (max - (rate_limit_counter m + 1)))) by lia.
      rewrite <- Nat.succ_min_distr. cbn [replicate Nat.sub app].
      f_equal. f_equal. lia.
Qed.

End MockLimit.

(** X23.  Within one window of the mock's limiter (every call less than 60
    seconds after the last reset) the calls are accepted until the counter
    reaches the limit and refused from then on: of [n] calls the first
    [max - counter] (none if the counter is at or over the limit) are
    accepted and the others refused, and the window does not move. *)
Theorem check_rate_limit_accepts_up_to_limit
    (m : VendorMock) (max_calls_per_minute : Z) (times : list Q) :
  Forall (fun t => (t - last_reset_time m < 60)%Q) times ->
  let k := Nat.min (length times)
             (Z.to_nat (max_calls_per_minute - rate_limit_counter m)) in
  snd (check_all m max_calls_per_minute times)
  = (replicate k true ++ replicate (length times - k) false)%list
  /\ rate_limit_counter (fst (check_all m max_calls_per_minute times))
     = (rate_limit_counter m + Z.of_nat k)%Z
  /\ last_reset_time (fst (check_all m max_calls_per_minute times))
     = last_reset_time m.
Proof.
  intros H k. rewrite (check_all_in_window max_calls_per_minute times m H).
  fold k. cbn [fst snd rate_limit_counter last_reset_time]. auto.
Qed.

Lemma check_rate_limit_accepts_up_to_limit_witness :
  snd (check_all (VendorMock_init "sync" 1000) 2 [1001; 1002; 1003]%Q)
  = [true; true; false]
  /\ rate_limit_counter
       (fst (check_all (VendorMock_init "sync" 1000) 2 [1001; 1002; 1003]%Q))
     = 2%Z
  /\ last_reset_time
       (fst (check_all (VendorMock_init "sync" 1000) 2 [1001; 1002; 1003]%Q))
     = 1000%Q.
Proof.
  apply (check_rate_limit_accepts_up_to_limit (VendorMock_init "sync" 1000) 2
           [1001; 1002; 1003]%Q).
  repeat constructor.
Defined.

(** X24.  A call 60 seconds or more after the last reset opens a new window
    at the time of the call and with it a full quota, whatever the counter
    was: of that call and the calls that follow within 60 seconds of it, the
    first [max] are accepted (none for a limit of zero or less) and the
    others refused. *)
Theorem check_rate_limit_new_window_full_quota
    (m : VendorMock) (max_calls_per_minute : Z) (t : Q) (times : list Q) :
  (60 <= t - last_reset_time m)%Q ->
  Forall (fun u => (u - t < 60)%Q) times ->
  let k := Nat.min (S (length times)) (Z.to_nat max_calls_per_minute) in
  snd (check_all m max_calls_per_minute (t :: times))
  = (replicate k true ++ replicate (S (length times) - k) false)%list
  /\ last_reset_time (fst (check_all m max_calls_per_minute (t :: times))) = t.
Proof.
  intros Ht Hrest k. subst k. cbn [check_all].
  rewrite (check_rate_limit_after_window m _ t Ht).
  destruct (max_calls_per_minute <=? 0)%Z eqn:E.
  - apply Z.leb_le in E.
    rewrite check_all_in_window by exact Hrest.
    cbn [fst snd rate_limit_counter last_reset_time].
    replace (Z.to_nat (max_calls_per_minute - 0)) with 0%nat by lia.
    replace (Z.to_nat max_calls_per_minute) with 0%nat by lia.
    rewrite !Nat.min_0_r, !Nat.sub_0_r. cbn [replicate app]. auto.
  - apply Z.leb_gt in E.
    rewrite check_all_in_window by exact Hrest.
    cbn [fst snd rate_limit_counter last_reset_time].
    replace (Z.to_nat max_calls_per_minute)
      with (S (Z.to_nat (max_calls_per_minute - 1))) by lia.
    rewrite <- Nat.succ_min_distr. cbn [replicate Nat.sub app]. auto.
Qed.

Lemma check_rate_limit_new_window_full_quota_witness :
  snd (check_all
         {| vendor_type := "sync"; rate_limit_counter := 100;
            last_reset_time := 1000%Q |} 2 [1060; 1061; 1062]%Q)
  = [true; true; false]
  /\ last_reset_time
       (fst (check_all
               {| vendor_type := "sync"; rate_limit_counter := 100;
                  last_reset_time := 1000%Q |} 2 [1060; 1061; 1062]%Q))
     = 1060%Q.
Proof.
  apply (check_rate_limit_new_window_full_quota
           {| vendor_type := "sync"; rate_limit_counter := 100;
              last_reset_time := 1000%Q |} 2 1060%Q [1061; 1062]%Q).
  - vm_compute. discriminate.
  - repeat constructor.
Defined.

Section MockAnswers.

Lemma check_rate_limit_vendor_type m max t :
  vendor_type (fst (check_rate_limit m max t)) = vendor_type m.
Proof.
  unfold check_rate_limit.
  destruct (Qle_bool 60 (t - last_reset_time m));
    cbn [rate_limit_counter];
    match goal with |- context [(?a <=? ?b)%Z] => destruct (a <=? b)%Z end;
    reflexivity.
Qed.

Lemma clean_mock_data m pl r :
  vendor_type m = "sync" ->
  clean_vendor_data (VDict (generate_mock_data m pl r)) = cleaned_mock_data pl r.
Proof.
  intros Hm. unfold generate_mock_data, cleaned_mock_data. rewrite Hm.
  destruct r as [pa dp cs pt ts [|]]; vm_compute; reflexivity.
Qed.

Lemma append_not_empty a c b : String.eqb (a ++ String c b) "" = false.
Proof. destruct a; reflexivity. Qed.

Lemma bson_encodable_cons k v d :
  bson_encodable (VDict ((k, v) :: d))
  = negb (has_nul k) && bson_encodable v && bson_encodable (VDict d).
Proof. reflexivity. Qed.

Lemma bson_encodable_int z :
  (- 2 ^ 63 <= z < 2 ^ 63)%Z -> bson_encodable (VInt z) = true.
Proof.
  intros [H1 H2]. cbn [bson_encodable]. apply andb_true_iff.
  split; [apply Z.leb_le | apply Z.ltb_lt]; assumption.
Qed.

(** The driver encodes the mock's data when it encodes the payload the
    mock echoes. *)
Lemma generate_mock_data_encodable m pl r :
  bson_encodable (VDict pl) = true ->
  draws_in_range r ->
  bson_encodable (VDict (generate_mock_data m pl r)) = true.
Proof.
  intros Hpl [Hd Hp].
  assert (H1 : bson_encodable (VInt (data_points r)) = true)
    by (apply bson_encodable_int; lia).
  assert (H2 : bson_encodable (VInt (processing_time_ms r)) = true)
    by (apply bson_encodable_int; lia).
  unfold generate_mock_data.
  destruct (with_user_info r);
    [change (dict_set "user_info" ?v ?d) with (d ++ [("user_info", v)])%list;
     cbn [app] |];
    rewrite !bson_encodable_cons, Hpl, H1, H2; reflexivity.
Qed.

End MockAnswers.

(** X25.  A job in the store, routed to the synchronous vendor and answered
    by the synchronous mock, for a request payload that the driver of the
    store encodes and draws of the mock within their ranges: while the
    mock's limit allows, the job is complete and the stored result is the mock's data with the echoed input
    payload sanitized and, when the mock added the user information, the
    address and the phone number redacted and the name trimmed, every other
    field as the mock produced it; when the limit is exhausted (answer 429)
    the job is failed. *)
Theorem sync_mock_answer_is_stored_sanitized
    (env : environment) (vc : VendorClient) (jobs : gmap string job_doc)
    (r : VendorRequest) (d : job_doc) (m : VendorMock) (t : Q)
    (draws : mock_draws) :
  jobs !! job_id r = Some d ->
  (str_hash env (job_id r) mod 2 = 0)%Z ->
  vendor_type m = "sync" ->
  http_post env (sync_request vc r)
  = as_http (snd (sync_process m (as_process_request r None) t draws)) ->
  bson_encodable (VDict (vr_payload r)) = true ->
  draws_in_range draws ->
  jobs_after (process_job env vc jobs r) !! job_id r
  = Some (if snd (check_rate_limit m 100 t)
          then {| payload := payload d; status := COMPLETE;
                  created_at := created_at d; updated_at := utcnow_2 env;
                  result := cleaned_mock_data (vr_payload r) draws;
                  error := error d |}
          else {| payload := payload d; status := FAILED;
                  created_at := created_at d; updated_at := utcnow_2 env;
                  result := result d;
                  error := Some "Sync vendor call failed" |}).
Proof.
  intros Hd Hhash Hm Hpost Hpl Hdraws.
  rewrite (process_job_sync env vc jobs r Hhash). cbv zeta.
  rewrite Hpost. unfold sync_process.
  pose proof (check_rate_limit_vendor_type m 100 t) as Hm'.
  destruct (check_rate_limit m 100 t) as [m' [|]]; cbn [fst snd] in *.
  - cbn [as_http sync_result Z.eqb Pos.eqb truthy jobs_after].
    unfold data_of. cbn [dict_get String.eqb Ascii.eqb Bool.eqb].
    change (String.eqb "success" "data") with false.
    change (String.eqb "data" "data") with true. cbv iota.
    cbn [as_process_request p_payload].
    assert (Henc : bson_encodable
                     (clean_vendor_data
                        (VDict (generate_mock_data m' (vr_payload r) draws)))
                   = true)
      by now apply clean_vendor_data_encodable, generate_mock_data_encodable.
    rewrite (clean_mock_data m' (vr_payload r) draws) in * by congruence.
    rewrite !update_job_status_lookup_eq, Henc, Hd. reflexivity.
  - cbn [as_http sync_result truthy jobs_after].
    change (429 =? 200)%Z with false. cbv iota. cbn [truthy].
    rewrite !update_job_status_lookup_eq, Hd. reflexivity.
Qed.

Import MockExamples.

Lemma sync_mock_answer_is_stored_sanitized_witness :
  jobs_after (process_job (env_with_mocks 0) client pending_store request)
    !! "job-1"
  = Some {| payload := [("x", VInt 1)]; status := COMPLETE;
            created_at := 100; updated_at := 300;
            result := cleaned_mock_data [("x", VInt 1)] draws;
            error := None |}.
Proof.
  apply (sync_mock_answer_is_stored_sanitized (env_with_mocks 0) client
           pending_store request (job_in PENDING VNone None) sync_mock 1001
           draws).
  - reflexivity.
  - reflexivity.
  - reflexivity.
  - reflexivity.
  - reflexivity.
  - unfold draws_in_range. simpl. lia.
Defined.

(** X26.  A job in the store, routed to the asynchronous vendor and answered
    by the asynchronous mock: the request of the worker always carries a
    callback address, so the mock never refuses it for lack of one.  While
    the mock's limit allows, the job is left [PROCESSING] and the mock
    schedules a callback to [api_url/vendor-webhook/async]; when the limit is
    exhausted (answer 429) the job is failed and no callback is scheduled. *)
Theorem async_mock_answer_schedules_callback
    (env : environment) (vc : VendorClient) (jobs : gmap string job_doc)
    (r : VendorRequest) (d : job_doc) (m : VendorMock) (t : Q) :
  let request :=
    as_process_request r (Some (api_url vc ++ "/vendor-webhook/async")) in
  jobs !! job_id r = Some d ->
  (str_hash env (job_id r) mod 2 <> 0)%Z ->
  http_post env (async_request vc r)
  = as_http (snd (fst (async_process m request t))) ->
  if snd (check_rate_limit m 50 t)
  then
    status <$> jobs_after (process_job env vc jobs r) !! job_id r
    = Some PROCESSING
    /\ snd (async_process m request t)
       = Some (api_url vc ++ "/vendor-webhook/async")
  else
    (status <$> jobs_after (process_job env vc jobs r) !! job_id r
     = Some FAILED
     /\ error <$> jobs_after (process_job env vc jobs r) !! job_id r
        = Some (Some "Async vendor call failed"))
    /\ snd (async_process m request t) = None.
Proof.
  intros request Hd Hhash Hpost.
  rewrite (process_job_async env vc jobs r Hhash). cbv zeta.
  rewrite Hpost. subst request. unfold async_process.
  destruct (check_rate_limit m 50 t) as [m' [|]]; cbn [fst snd].
  - cbn [as_process_request p_webhook_url].
    change (api_url vc ++ "/vendor-webhook/async")
      with (api_url vc ++ String "/" "vendor-webhook/async").
    rewrite append_not_empty. cbn [fst snd as_http Z.eqb Pos.eqb jobs_after].
    rewrite update_job_status_lookup_eq, Hd. split; reflexivity.
  - cbn [as_http jobs_after]. change (429 =? 200)%Z with false. cbv iota.
    rewrite !update_job_status_lookup_eq, Hd. repeat split.
Qed.

Lemma async_mock_answer_schedules_callback_witness :
  status <$> jobs_after (process_job (env_with_mocks 1) client pending_store
                           request) !! "job-1"
  = Some PROCESSING
  /\ snd (async_process async_mock
            (as_process_request request
               (Some "http://localhost:8000/vendor-webhook/async")) 1001)
     = Some "http://localhost:8000/vendor-webhook/async".
Proof.
  apply (async_mock_answer_schedules_callback (env_with_mocks 1) client
           pending_store request (job_in PENDING VNone None) async_mock 1001).
  - reflexivity.
  - discriminate.
  - reflexivity.
Defined.

(** X27.  The asynchronous mock refuses a request without a callback
    address (absent or empty) with 400 and schedules no callback, but the
    request has already been counted against its rate limit. *)
Theorem async_mock_without_callback_address
    (m : VendorMock) (request : ProcessRequest) (t : Q) :
  p_webhook_url request = None \/ p_webhook_url request = Some "" ->
  snd (check_rate_limit m 50 t) = true ->
  async_process m request t
  = (fst (check_rate_limit m 50 t),
     MockError 400 "Webhook URL required for async vendor", None)
  /\ ((t - last_reset_time m < 60)%Q ->
      rate_limit_counter (fst (check_rate_limit m 50 t))
      = (rate_limit_counter m + 1)%Z).
Proof.
  intros Hurl Hok. split.
  - unfold async_process. destruct (check_rate_limit m 50 t) as [m' ok].
    cbn [fst snd] in *. subst ok.
    destruct Hurl as [-> | ->]; reflexivity.
  - intros Ht. rewrite (check_rate_limit_in_window m 50 t Ht) in *.
    destruct (50 <=? rate_limit_counter m)%Z; [discriminate | reflexivity].
Qed.

Lemma async_mock_without_callback_address_witness :
  async_process async_mock
    {| p_job_id := "job-1"; p_payload := []; p_webhook_url := None |} 1001
  = (fst (check_rate_limit async_mock 50 1001),
     MockError 400 "Webhook URL required for async vendor", None)
  /\ rate_limit_counter (fst (check_rate_limit async_mock 50 1001)) = 1%Z.
Proof.
  destruct (async_mock_without_callback_address async_mock
              {| p_job_id := "job-1"; p_payload := []; p_webhook_url := None |}
              1001) as [A B].
  - now left.
  - reflexivity.
  - split; [exact A | apply B; reflexivity].
Defined.

(** X28.  The callback of the asynchronous mock, delivered to the webhook
    handler for a job in the store, for a request payload that the driver of
    the store encodes and draws of the mock within their ranges, completes
    the job with the mock's data as it is: when the mock added the user information, the stored result holds
    the address and the phone number in clear and the name untrimmed, unlike
    the result of the synchronous path. *)
Theorem async_mock_callback_is_stored_as_sent
    (jobs : gmap string job_doc) (vendor : string) (m : VendorMock)
    (request : ProcessRequest) (draws : mock_draws) (now : Z) (d : job_doc) :
  jobs !! p_job_id request = Some d ->
  with_user_info draws = true ->
  bson_encodable (VDict (p_payload request)) = true ->
  draws_in_range draws ->
  exists d',
    fst (vendor_webhook jobs vendor (callback_body m request draws) now)
      !! p_job_id request = Some d'
    /\ status d' = COMPLETE
    /\ result d' = VDict (generate_mock_data m (p_payload request) draws)
    /\ path_get ["result"; "user_info"; "email"] (result d')
       = Some (VStr "  user@example.com  ")
    /\ path_get ["result"; "user_info"; "phone"] (result d')
       = Some (VStr "555-123-4567")
    /\ path_get ["result"; "user_info"; "name"] (result d')
       = Some (VStr "  John Doe  ").
Proof.
  intros Hd Hinfo Hpl Hdraws.
  rewrite vendor_webhook_fst. cbn [callback_body wh_job_id wh_data].
  rewrite update_job_status_lookup_eq, Hd.
  rewrite (generate_mock_data_encodable m _ draws Hpl Hdraws).
  eexists. split; [reflexivity|].
  cbn [apply_set update_of status result set_status set_result].
  split; [reflexivity|]. split; [reflexivity|].
  unfold generate_mock_data. rewrite Hinfo. repeat split.
Qed.

Lemma async_mock_callback_is_stored_as_sent_witness :
  exists d',
    fst (vendor_webhook pending_store "async"
           (callback_body async_mock (as_process_request request None) draws)
           400) !! "job-1" = Some d'
    /\ status d' = COMPLETE
    /\ path_get ["result"; "user_info"; "email"] (result d')
       = Some (VStr "  user@example.com  ").
Proof.
  destruct (async_mock_callback_is_stored_as_sent pending_store "async"
              async_mock (as_process_request request None) draws 400
              (job_in PENDING VNone None)) as (d' & L & S & _ & E & _).
  - reflexivity.
  - reflexivity.
  - reflexivity.
  - unfold draws_in_range. simpl. lia.
  - exists d'. split; [exact L|]. split; [exact S | exact E].
Defined.

(** ** Results the store does not take, and the limiter's sleep *)

(** X29.  A job in the store, routed to the synchronous vendor, whose vendor
    answers 200 with a non-empty JSON object: when the driver of the store
    does not encode the sanitized data, the write of the result fails
    silently and the job stays [PROCESSING], with the result and the error
    it had before and the time of the first update; it is neither complete
    nor failed. *)
Theorem sync_success_unencodable_data_stays_processing
    (env : environment) (vc : VendorClient) (jobs : gmap string job_doc)
    (r : VendorRequest) (d : job_doc) (body : dict) :
  jobs !! job_id r = Some d ->
  (str_hash env (job_id r) mod 2 = 0)%Z ->
  http_post env (sync_request vc r) = Response 200 (Some (VDict body)) ->
  body <> [] ->
  bson_encodable (clean_vendor_data (data_of body)) = false ->
  jobs_after (process_job env vc jobs r) !! job_id r
  = Some {| payload := payload d; status := PROCESSING;
            created_at := created_at d; updated_at := utcnow_1 env;
            result := result d; error := error d |}.
Proof.
  intros Hjob Hhash Hpost Hbody Henc.
  pose proof (process_job_sync_lookup env vc jobs r Hhash) as L.
  cbv zeta in L. rewrite call_sync_vendor_result, Hpost in L.
  cbn [Z.eqb Pos.eqb] in L.
  assert (Ht : truthy (VDict body) = true)
    by (destruct body; [contradiction | reflexivity]).
  rewrite Ht, Hjob, Henc in L. exact L.
Qed.

Lemma sync_success_unencodable_data_stays_processing_witness :
  jobs_after (process_job (env_with 0 (success_with oversized_data)) client
                pending_store request) !! "job-1"
  = Some {| payload := [("x", VInt 1)]; status := PROCESSING;
            created_at := 100; updated_at := 200;
            result := VNone; error := None |}.
Proof.
  apply (sync_success_unencodable_data_stays_processing
           (env_with 0 (success_with oversized_data)) client pending_store
           request (job_in PENDING VNone None)
           [("success", VBool true); ("data", oversized_data)]).
  - reflexivity.
  - reflexivity.
  - reflexivity.
  - discriminate.
  - reflexivity.
Defined.

Section LimiterSleep.

Lemma float_sub_same (t : float) :
  float_is_finite t = true -> float_sub t t = S754_zero false.
Proof.
  destruct t as [[|] | | | s m e]; try discriminate; intros _;
    try reflexivity.
  unfold float_sub, SFsub. rewrite Z.sub_diag. reflexivity.
Qed.



End LimiterSleep.

(** X30.  No burst: once [wait_if_needed] has admitted a call at a clock
    reading, a next call that enters at the same reading is asked to sleep
    the whole [min_interval], whatever time went by before the first call.
    (Times are finite floats and the interval is above zero.) *)
Theorem wait_if_needed_back_to_back_sleeps_min_interval
    (rl : RateLimiter) (current_time admitted wake_time : float) :
  float_is_finite admitted = true ->
  float_is_positive (min_interval rl) = true ->
  let rl1 := fst (wait_if_needed rl current_time admitted) in
  snd (wait_if_needed rl1 admitted wake_time) = Some (min_interval rl)
  /\ min_interval (fst (wait_if_needed rl1 admitted wake_time))
     = min_interval rl.
Proof.
  intros Hfin Hpos. cbv zeta. split; [|reflexivity].
  unfold wait_if_needed, sleep_time.
  cbn [fst snd last_call_time min_interval].
  rewrite (float_sub_same admitted Hfin).
  destruct (min_interval rl) as [ | | | [|] m e]; try discriminate.
  reflexivity.
Qed.

Lemma wait_if_needed_back_to_back_sleeps_min_interval_witness :
  snd (wait_if_needed
         (fst (wait_if_needed (async_rate_limiter client)
                 clock_1000 clock_1000))
         clock_1000 clock_1000)
  = Some (S754_finite false 6004799503160661 (-54)).
Proof.
  apply (wait_if_needed_back_to_back_sleeps_min_interval
           (async_rate_limiter client) clock_1000 clock_1000 clock_1000).
  - reflexivity.
  - reflexivity.
Defined.


